(** * simulate.py: gear-shifting sweep over a constraint-based metabolic model

    A shallow embedding of [simulate.py] and the verification of its
    specification.  Python floats are idealised as real numbers: [np.exp] is
    the real exponential, [x ** 1.8] the real power, [round(x, 2)] rounding to
    the nearest hundredth with ties to even.  The external solver
    ([model.optimize]) is a function argument of the sweep.  The sweep is
    given twice: as total functions, and in [Checked] with the exceptions
    of the bound writes ([OverflowError] of [**], [ValueError] of cobra's
    bound setters); the two agree whenever nothing is raised. *)

From Stdlib Require Import Reals Lra Lia ZArith List.
From stdpp Require Import base strings gmap.

Local Open Scope R_scope.

(** ** Python numeric built-ins on reals *)

Module Py.

(** [min(a, b)]: the first of the smallest arguments. *)
Definition min (a b : R) : R := if Rlt_dec b a then b else a.

(** [max(a, b)]: the first of the largest arguments. *)
Definition max (a b : R) : R := if Rlt_dec a b then b else a.

(** [x ** y] for a float base [x >= 0] and an exponent [y > 0]: zero at zero,
    [exp (y * ln x)] elsewhere.  The script only raises [abs(..) * 0.02]. *)
Definition pow (x y : R) : R := if Req_dec_T x 0 then 0 else Rpower x y.

End Py.

(** ** Stress functions (simulate.py, lines 13-26) *)

(** [calculate_stress_cost]: non-linear ATP maintenance cost. *)
Definition calculate_stress_cost (glucose_uptake : R) : R :=
  let base_stress := Rabs glucose_uptake * 0.02 in
  Py.min (Py.pow base_stress 1.8) 200.0.

(** [calculate_stress_penalty]: piecewise biomass penalty. *)
Definition calculate_stress_penalty (glucose_uptake : R) : R :=
  let glucose := Rabs glucose_uptake in
  let penalty :=
    if Rle_dec glucose 30.0 then exp (glucose / 35) / 20
    else if Rle_dec glucose 80.0 then exp (glucose / 25) / 15
    else exp (glucose / 40) / 10 in
  Py.min penalty 0.95.

(** ** Data model *)

(** A gear: one entry of the [gears] list (lines 29-35). *)
Record GearConfig := {
  name : string;
  glucose : R;
  oxygen : R;
  burden : R
}.

Definition gears : list GearConfig := [
  {| name := "Gear 1"; glucose := -10.0; oxygen := -18.0; burden := 0.0 |};
  {| name := "Gear 2"; glucose := -30.0; oxygen := -30.0; burden := 0.05 |};
  {| name := "Gear 3"; glucose := -80.0; oxygen := -60.0; burden := 0.12 |};
  {| name := "Gear 4"; glucose := -150.0; oxygen := -100.0; burden := 0.18 |};
  {| name := "Gear 5"; glucose := -250.0; oxygen := -150.0; burden := 0.25 |}
].

(** The bounds of one reaction of the cobra model.  Assigning a bound is a
    plain field update. *)
Record Reaction := {
  lower_bound : R;
  upper_bound : R
}.

Definition set_lower_bound (v : R) (r : Reaction) : Reaction :=
  {| lower_bound := v; upper_bound := upper_bound r |}.

Definition set_upper_bound (v : R) (r : Reaction) : Reaction :=
  {| lower_bound := lower_bound r; upper_bound := v |}.

(** The part of the shared model object the script reads and writes: the six
    reactions it names.  Everything else in the model is seen by the solver
    only and never changes. *)
Record Model := {
  EX_glc__D_e : Reaction;
  EX_o2_e : Reaction;
  BIOMASS_Ec_iML1515_core_75p37M : Reaction;
  ATPM : Reaction;
  EX_lac__D_e : Reaction;
  EX_etoh_e : Reaction
}.

Definition with_EX_glc__D_e (f : Reaction -> Reaction) (m : Model) : Model :=
  {| EX_glc__D_e := f (EX_glc__D_e m); EX_o2_e := EX_o2_e m;
     BIOMASS_Ec_iML1515_core_75p37M := BIOMASS_Ec_iML1515_core_75p37M m;
     ATPM := ATPM m; EX_lac__D_e := EX_lac__D_e m; EX_etoh_e := EX_etoh_e m |}.

Definition with_EX_o2_e (f : Reaction -> Reaction) (m : Model) : Model :=
  {| EX_glc__D_e := EX_glc__D_e m; EX_o2_e := f (EX_o2_e m);
     BIOMASS_Ec_iML1515_core_75p37M := BIOMASS_Ec_iML1515_core_75p37M m;
     ATPM := ATPM m; EX_lac__D_e := EX_lac__D_e m; EX_etoh_e := EX_etoh_e m |}.

Definition with_BIOMASS (f : Reaction -> Reaction) (m : Model) : Model :=
  {| EX_glc__D_e := EX_glc__D_e m; EX_o2_e := EX_o2_e m;
     BIOMASS_Ec_iML1515_core_75p37M := f (BIOMASS_Ec_iML1515_core_75p37M m);
     ATPM := ATPM m; EX_lac__D_e := EX_lac__D_e m; EX_etoh_e := EX_etoh_e m |}.

Definition with_ATPM (f : Reaction -> Reaction) (m : Model) : Model :=
  {| EX_glc__D_e := EX_glc__D_e m; EX_o2_e := EX_o2_e m;
     BIOMASS_Ec_iML1515_core_75p37M := BIOMASS_Ec_iML1515_core_75p37M m;
     ATPM := f (ATPM m); EX_lac__D_e := EX_lac__D_e m;
     EX_etoh_e := EX_etoh_e m |}.

Definition with_EX_lac__D_e (f : Reaction -> Reaction) (m : Model) : Model :=
  {| EX_glc__D_e := EX_glc__D_e m; EX_o2_e := EX_o2_e m;
     BIOMASS_Ec_iML1515_core_75p37M := BIOMASS_Ec_iML1515_core_75p37M m;
     ATPM := ATPM m; EX_lac__D_e := f (EX_lac__D_e m);
     EX_etoh_e := EX_etoh_e m |}.

Definition with_EX_etoh_e (f : Reaction -> Reaction) (m : Model) : Model :=
  {| EX_glc__D_e := EX_glc__D_e m; EX_o2_e := EX_o2_e m;
     BIOMASS_Ec_iML1515_core_75p37M := BIOMASS_Ec_iML1515_core_75p37M m;
     ATPM := ATPM m; EX_lac__D_e := EX_lac__D_e m;
     EX_etoh_e := f (EX_etoh_e m) |}.

(** What [model.optimize()] returns: [objective_value] is a Python float or
    [None]; [fluxes] is a pandas Series, from reaction names to numpy floats.
    Solving reads the bounds and leaves them as they are. *)
Record Solution := {
  objective_value : option R;
  fluxes : gmap string R
}.

(** A number held by the script: a Python [float] or a numpy [float64].  The
    two differ in what division by zero does. *)
Inductive number :=
  | PyFloat (v : R)
  | NpFloat64 (v : R).

Definition value (n : number) : R :=
  match n with PyFloat v | NpFloat64 v => v end.

Definition map_number (f : R -> R) (n : number) : number :=
  match n with
  | PyFloat v => PyFloat (f v)
  | NpFloat64 v => NpFloat64 (f v)
  end.

(** [solution.fluxes.get(key, 0.0)]. *)
Definition fluxes_get (s : Solution) (key : string) : number :=
  match fluxes s !! key with
  | Some v => NpFloat64 v
  | None => PyFloat 0.0
  end.

(** Truth value of a number: zero is false. *)
Definition truthy (n : number) : bool :=
  if Req_dec_T (value n) 0 then false else true.

(** Nearest integer, ties to even. *)
Definition round_half_even (y : R) : Z :=
  let f := Int_part y in
  let d := y - IZR f in
  if Rlt_dec d (1 / 2) then f
  else if Rlt_dec (1 / 2) d then (f + 1)%Z
  else if Z.even f then f else (f + 1)%Z.

(** [round(x, 2)] on the value. *)
Definition round2 (x : R) : R := IZR (round_half_even (x * 100)) / 100.

(** [round(n, 2)]: keeps the kind of float. *)
Definition round (n : number) : number := map_number round2 n.

(** [abs(n)]. *)
Definition abs (n : number) : number := map_number Rabs n.

(** One row of [results] (lines 73-80). *)
Record Result := {
  Gear : string;
  Growth_Rate : number;
  ATP_Production : number;
  Glucose_Uptake : number;
  Lactate_Production : number;
  Ethanol_Production : number
}.

(** ** The sweep (lines 41-80) *)

(** Lines 45-61: the bounds set for one gear, in the order of the script. *)
Definition apply_gear (gear : GearConfig) (model : Model) : Model :=
  let model := with_EX_glc__D_e (set_lower_bound (glucose gear)) model in
  let model := with_EX_o2_e (set_lower_bound (oxygen gear)) model in
  let base_biomass := upper_bound (BIOMASS_Ec_iML1515_core_75p37M model) in
  let stress_penalty := calculate_stress_penalty (glucose gear) in
  let biomass_bound :=
    base_biomass * Py.max 0.001 (1 - burden gear - stress_penalty) in
  let model := with_BIOMASS (set_upper_bound biomass_bound) model in
  let model :=
    with_ATPM (set_lower_bound (35.0 + calculate_stress_cost (glucose gear)))
      model in
  let model := with_EX_lac__D_e (set_lower_bound 0.0) model in
  let model := with_EX_lac__D_e (set_upper_bound 1000.0) model in
  let model := with_EX_etoh_e (set_lower_bound 0.0) model in
  let model := with_EX_etoh_e (set_upper_bound 1000.0) model in
  model.

(** Lines 67-80: the row recorded from a solution. *)
Definition record_result (gear : GearConfig) (solution : Solution) : Result :=
  let growth := objective_value solution in
  let atp := fluxes_get solution "ATPS4rpp" in
  let glucose := fluxes_get solution "EX_glc__D_e" in
  let lactate := fluxes_get solution "EX_lac__D_e" in
  let ethanol := fluxes_get solution "EX_etoh_e" in
  {| Gear := name gear;
     Growth_Rate :=
       match growth with
       | Some g => if truthy (PyFloat g) then round (PyFloat g) else PyFloat 0.0
       | None => PyFloat 0.0
       end;
     ATP_Production := if truthy atp then round atp else PyFloat 0.0;
     Glucose_Uptake := round glucose;
     Lactate_Production := round lactate;
     Ethanol_Production := round ethanol |}.

(** One iteration of the loop: the model is mutated in place, solved, and a
    row is appended.  The model the solver sees is the model left for the
    next iteration. *)
Definition simulate_gear (optimize : Model -> Solution)
    (st : Model * list Result) (gear : GearConfig) : Model * list Result :=
  let model := apply_gear gear (fst st) in
  let solution := optimize model in
  (model, snd st ++ [record_result gear solution]).

(** The whole loop, from the loaded model and an empty [results]. *)
Definition sweep (optimize : Model -> Solution) (model : Model)
    (gs : list GearConfig) : Model * list Result :=
  fold_left (simulate_gear optimize) gs (model, []).

(** The model as gear number [k] (from 0) is solved: the state of the shared
    model after the first [k + 1] iterations. *)
Definition model_at_solve (optimize : Model -> Solution) (model : Model)
    (gs : list GearConfig) (k : nat) : Model :=
  fst (sweep optimize model (firstn (S k) gs)).

(** ** Fold improvements (lines 88-96) *)

Inductive exn := ZeroDivisionError | IndexError.

Inductive outcome (A : Type) :=
  | Return (a : A)
  | Raise (e : exn).
Arguments Return {A} a.
Arguments Raise {A} e.

Definition bind {A B : Type} (c : outcome A) (k : A -> outcome B) : outcome B :=
  match c with
  | Return a => k a
  | Raise e => Raise e
  end.

Notation "'let!' x ':=' c 'in' k" := (bind c (fun x => k))
  (at level 10, x name, c at level 100, k at level 200).

(** What a division yields when it does not raise. *)
Inductive ratio :=
  | Finite (v : R)
  | Infinite
  | NotANumber.

(** [a / b].  Two Python floats: a zero divisor raises.  With a numpy float
    on either side the division is numpy's: a zero divisor gives [inf] (or
    [nan] for [0 / 0]) and only a warning. *)
Definition truediv (a b : number) : outcome ratio :=
  match a, b with
  | PyFloat x, PyFloat y =>
      if Req_dec_T y 0 then Raise ZeroDivisionError else Return (Finite (x / y))
  | _, _ =>
      if Req_dec_T (value b) 0 then
        if Req_dec_T (value a) 0 then Return NotANumber else Return Infinite
      else Return (Finite (value a / value b))
  end.

Record FoldChange := {
  glucose_fold : ratio;
  atp_fold : ratio;
  growth_fold : ratio
}.

(** Lines 90-92, for one row against the first. *)
Definition fold_change (gear1 gear : Result) : outcome FoldChange :=
  let! glucose_fold :=
    truediv (abs (Glucose_Uptake gear)) (abs (Glucose_Uptake gear1)) in
  let! atp_fold := truediv (ATP_Production gear) (ATP_Production gear1) in
  let! growth_fold := truediv (Growth_Rate gear) (Growth_Rate gear1) in
  Return {| glucose_fold := glucose_fold; atp_fold := atp_fold;
            growth_fold := growth_fold |}.

Fixpoint fold_loop (gear1 : Result) (rest : list Result)
    : outcome (list FoldChange) :=
  match rest with
  | [] => Return []
  | gear :: rest =>
      let! fc := fold_change gear1 gear in
      let! fcs := fold_loop gear1 rest in
      Return (fc :: fcs)
  end.

(** Lines 88-96: [gear1 = results[0]], then the loop over [results[1:]]. *)
Definition fold_improvements (results : list Result)
    : outcome (list FoldChange) :=
  match results with
  | [] => Raise IndexError
  | gear1 :: rest => fold_loop gear1 rest
  end.

(** The script up to line 96. *)
Definition main (optimize : Model -> Solution) (model : Model)
    : list Result * outcome (list FoldChange) :=
  let results := snd (sweep optimize model gears) in
  (results, fold_improvements results).

(** The factor applied to the biomass upper bound for one gear (line 51). *)
Definition biomass_factor (gear : GearConfig) : R :=
  Py.max 0.001 (1 - burden gear - calculate_stress_penalty (glucose gear)).

(** The bound of the biomass reaction's flux from above. *)
Definition biomass_ub (m : Model) : R :=
  upper_bound (BIOMASS_Ec_iML1515_core_75p37M m).


(** A model to run the sweep on, with an upper bound of 1000 on the biomass
    reaction. *)
Definition example_model : Model :=
  {| EX_glc__D_e := {| lower_bound := -10; upper_bound := 1000 |};
     EX_o2_e := {| lower_bound := -1000; upper_bound := 1000 |};
     BIOMASS_Ec_iML1515_core_75p37M :=
       {| lower_bound := 0; upper_bound := 1000 |};
     ATPM := {| lower_bound := 6.86; upper_bound := 1000 |};
     EX_lac__D_e := {| lower_bound := 0; upper_bound := 1000 |};
     EX_etoh_e := {| lower_bound := 0; upper_bound := 1000 |} |}.

(** A solver that finds nothing: no objective value, no fluxes. *)
Definition no_solution (_ : Model) : Solution :=
  {| objective_value := None; fluxes := ∅ |}.

(** A gear the specification would reject: a burden above 1 and positive
    uptake bounds. *)
Definition bad_gear : GearConfig :=
  {| name := "Gear X"; glucose := 10.0; oxygen := 5.0; burden := 1.5 |}.

(** A solution with no objective value whose fluxes are still there. *)
Definition infeasible_with_fluxes : Solution :=
  {| objective_value := None; fluxes := {[ "EX_glc__D_e" := -10 ]} |}.

(** A solution without glucose uptake or ATP synthase flux, and one with
    both. *)
Definition idle_solution : Solution :=
  {| objective_value := Some 0.5;
     fluxes := {[ "ATPS4rpp" := 0; "EX_glc__D_e" := 0 ]} |}.

Definition busy_solution : Solution :=
  {| objective_value := Some 0.5;
     fluxes := {[ "ATPS4rpp" := 50; "EX_glc__D_e" := -30 ]} |}.

(** A solver that returns the first for the first gear (glucose bound -10)
    and the second for the later gears. *)
Definition zero_baseline_solver (m : Model) : Solution :=
  if Req_dec_T (lower_bound (EX_glc__D_e m)) (-10.0) then idle_solution
  else busy_solution.

(** Whether a number is a numpy float. *)
Definition is_np (n : number) : bool :=
  match n with PyFloat _ => false | NpFloat64 _ => true end.

(** A row with no zero in it. *)
Definition example_row : Result :=
  {| Gear := "Gear 1"; Growth_Rate := PyFloat 0.5;
     ATP_Production := NpFloat64 50; Glucose_Uptake := NpFloat64 (-10);
     Lactate_Production := NpFloat64 0; Ethanol_Production := NpFloat64 0 |}.

(** ** Data for the plots (lines 100-112) *)

(** [-n]. *)
Definition neg (n : number) : number := map_number Ropp n.

(** A list comprehension whose element expression may raise: the elements
    are computed from left to right and the first exception ends it. *)
Fixpoint comprehension {A B : Type} (f : A -> outcome B) (l : list A)
    : outcome (list B) :=
  match l with
  | [] => Return []
  | x :: l =>
      let! y := f x in
      let! ys := comprehension f l in
      Return (y :: ys)
  end.

(** The lists handed to matplotlib.  [plot_gears] is the list the script
    rebinds [gears] to on line 101. *)
Record PlotData := {
  plot_gears : list string;
  glucose_uptake : list number;
  growth_rates : list number;
  atp_production : list number;
  lactate_production : list number;
  ethanol_production : list number;
  glucose_folds : list ratio;
  atp_folds : list ratio;
  growth_folds : list ratio
}.

(** The element of [growth_folds] (line 112):
    [result / gear1 if result > 0 else 0.0] on the growth rates. *)
Definition guarded_growth_fold (gear1 result : Result) : outcome ratio :=
  if Rlt_dec 0 (value (Growth_Rate result)) then
    truediv (Growth_Rate result) (Growth_Rate gear1)
  else Return (Finite 0.0).

(** Lines 101-112. *)
Definition plot_data (results : list Result) : outcome PlotData :=
  let gears := map Gear results in
  let glucose_uptake :=
    map (fun result => neg (Glucose_Uptake result)) results in
  let growth_rates := map Growth_Rate results in
  let atp_production := map ATP_Production results in
  let lactate_production := map Lactate_Production results in
  let ethanol_production := map Ethanol_Production results in
  match results with
  | [] => Raise IndexError
  | gear1 :: _ =>
      let! glucose_folds :=
        comprehension
          (fun result =>
             truediv (abs (Glucose_Uptake result)) (abs (Glucose_Uptake gear1)))
          results in
      let! atp_folds :=
        comprehension
          (fun result =>
             truediv (ATP_Production result) (ATP_Production gear1))
          results in
      let! growth_folds :=
        comprehension (guarded_growth_fold gear1) results in
      Return
        {| plot_gears := gears; glucose_uptake := glucose_uptake;
           growth_rates := growth_rates; atp_production := atp_production;
           lactate_production := lactate_production;
           ethanol_production := ethanol_production;
           glucose_folds := glucose_folds; atp_folds := atp_folds;
           growth_folds := growth_folds |}
  end.

(** The script up to line 112: the sweep, the fold-improvement loop, then the
    data for the plots. *)
Definition script (optimize : Model -> Solution) (model : Model)
    : outcome (list Result * list FoldChange * PlotData) :=
  let results := snd (sweep optimize model gears) in
  let! folds := fold_improvements results in
  let! plots := plot_data results in
  Return (results, folds, plots).

(** ** Predicates of the statements below *)

(** A reaction whose lower bound does not exceed its upper bound. *)
Definition ordered (r : Reaction) : Prop := lower_bound r <= upper_bound r.

(** All six reactions the script writes have ordered bounds. *)
Definition bounds_ordered (m : Model) : Prop :=
  ordered (EX_glc__D_e m) /\ ordered (EX_o2_e m) /\
  ordered (BIOMASS_Ec_iML1515_core_75p37M m) /\ ordered (ATPM m) /\
  ordered (EX_lac__D_e m) /\ ordered (EX_etoh_e m).

(** A solver with the same healthy solution for every gear. *)
Definition steady_solver (_ : Model) : Solution := busy_solution.

(** A solver whose solutions grow on glucose without ATP synthase flux. *)
Definition fermenting_solver (_ : Model) : Solution :=
  {| objective_value := Some 0.5; fluxes := {[ "EX_glc__D_e" := -10 ]} |}.

(** ** The bound writes with their exceptions (lines 13-15, 45-61)

    The definitions above are total.  The ones below keep the two ways in
    which the bound-setting part of the loop stops: Python's [**] raises
    [OverflowError] when its result leaves the float range, and cobra's bound
    setters raise [ValueError] when the new bound crosses the other one. *)

(** The largest finite float, [(2 - 2^-52) * 2^1023]. *)
Definition float_max : R := IZR (2 ^ 1024 - 2 ^ 971).

Inductive setup_exn := OverflowError | ValueError.

Inductive attempt (A : Type) :=
  | Done (a : A)
  | Failed (e : setup_exn).
Arguments Done {A} a.
Arguments Failed {A} e.

Definition and_then {A B : Type} (c : attempt A) (k : A -> attempt B)
    : attempt B :=
  match c with
  | Done a => k a
  | Failed e => Failed e
  end.

Notation "'try!' x ':=' c 'in' k" := (and_then c (fun x => k))
  (at level 10, x name, c at level 100, k at level 200).

Module Checked.

(** [x ** y] on floats, [x >= 0] and [y > 0]: the power, or [OverflowError]
    when it is beyond the largest float. *)
Definition pow (x y : R) : attempt R :=
  if Rlt_dec float_max (Py.pow x y) then Failed OverflowError
  else Done (Py.pow x y).

(** [calculate_stress_cost] (lines 13-15). *)
Definition calculate_stress_cost (glucose_uptake : R) : attempt R :=
  let base_stress := Rabs glucose_uptake * 0.02 in
  try! power := pow base_stress 1.8 in
  Done (Py.min power 200.0).

(** [reaction.lower_bound = v]. *)
Definition set_lower_bound (v : R) (r : Reaction) : attempt Reaction :=
  if Rlt_dec (upper_bound r) v then Failed ValueError
  else Done (set_lower_bound v r).

(** [reaction.upper_bound = v]. *)
Definition set_upper_bound (v : R) (r : Reaction) : attempt Reaction :=
  if Rlt_dec v (lower_bound r) then Failed ValueError
  else Done (set_upper_bound v r).

(** Lines 45-61, each write in turn; the first exception ends it. *)
Definition apply_gear (gear : GearConfig) (model : Model) : attempt Model :=
  try! glc := set_lower_bound (glucose gear) (EX_glc__D_e model) in
  let model := with_EX_glc__D_e (fun _ => glc) model in
  try! o2 := set_lower_bound (oxygen gear) (EX_o2_e model) in
  let model := with_EX_o2_e (fun _ => o2) model in
  let base_biomass := upper_bound (BIOMASS_Ec_iML1515_core_75p37M model) in
  let stress_penalty := calculate_stress_penalty (glucose gear) in
  let biomass_bound :=
    base_biomass * Py.max 0.001 (1 - burden gear - stress_penalty) in
  try! biomass :=
    set_upper_bound biomass_bound (BIOMASS_Ec_iML1515_core_75p37M model) in
  let model := with_BIOMASS (fun _ => biomass) model in
  try! cost := calculate_stress_cost (glucose gear) in
  try! atpm := set_lower_bound (35.0 + cost) (ATPM model) in
  let model := with_ATPM (fun _ => atpm) model in
  try! lac := set_lower_bound 0.0 (EX_lac__D_e model) in
  let model := with_EX_lac__D_e (fun _ => lac) model in
  try! lac := set_upper_bound 1000.0 (EX_lac__D_e model) in
  let model := with_EX_lac__D_e (fun _ => lac) model in
  try! etoh := set_lower_bound 0.0 (EX_etoh_e model) in
  let model := with_EX_etoh_e (fun _ => etoh) model in
  try! etoh := set_upper_bound 1000.0 (EX_etoh_e model) in
  let model := with_EX_etoh_e (fun _ => etoh) model in
  Done model.

(** One iteration of the loop (lines 41-80). *)
Definition simulate_gear (optimize : Model -> Solution)
    (st : Model * list Result) (gear : GearConfig)
    : attempt (Model * list Result) :=
  try! model := apply_gear gear (fst st) in
  let solution := optimize model in
  Done (model, snd st ++ [record_result gear solution]).

(** The loop from a given state: it stops at the first gear whose bounds
    cannot be written, and the rows gathered so far are lost with it. *)
Fixpoint sweep_from (optimize : Model -> Solution)
    (st : Model * list Result) (gs : list GearConfig)
    : attempt (Model * list Result) :=
  match gs with
  | [] => Done st
  | gear :: gs =>
      try! st := simulate_gear optimize st gear in
      sweep_from optimize st gs
  end.

Definition sweep (optimize : Model -> Solution) (model : Model)
    (gs : list GearConfig) : attempt (Model * list Result) :=
  sweep_from optimize (model, []) gs.

End Checked.

(** A gear whose bound writes pass on a model: its uptake bounds do not exceed
    the model's upper bounds, its stress cost is computed without overflow
    and fits under the upper bound of ATP maintenance.  Neither the burden
    nor the sign of the uptake bounds matters. *)
Definition fits (m : Model) (g : GearConfig) : Prop :=
  glucose g <= upper_bound (EX_glc__D_e m) /\
  oxygen g <= upper_bound (EX_o2_e m) /\
  Py.pow (Rabs (glucose g) * 0.02) 1.8 <= float_max /\
  35 + calculate_stress_cost (glucose g) <= upper_bound (ATPM m).

(** A model on which the biomass, lactate and ethanol writes pass. *)
Definition roomy (m : Model) : Prop :=
  lower_bound (BIOMASS_Ec_iML1515_core_75p37M m) <= 0 /\
  0 <= biomass_ub m /\
  0 <= upper_bound (EX_lac__D_e m) /\
  0 <= upper_bound (EX_etoh_e m).

(** A gear without glucose uptake. *)
Definition idle_gear : GearConfig :=
  {| name := "Idle"; glucose := 0; oxygen := -18.0; burden := 0 |}.

(** * Properties *)

(** ** Python built-ins *)

Lemma py_min_Rmin (a b : R) : Py.min a b = Rmin a b.
Proof.
  unfold Py.min, Rmin.
  destruct (Rlt_dec b a), (Rle_dec a b); lra.
Qed.

Lemma py_max_Rmax (a b : R) : Py.max a b = Rmax a b.
Proof.
  unfold Py.max, Rmax.
  destruct (Rlt_dec a b), (Rle_dec a b); lra.
Qed.

(** ** Rounding *)

Lemma Int_part_IZR (z : Z) : Int_part (IZR z) = z.
Proof.
  symmetry. apply Int_part_spec. lra.
Qed.

Lemma round_half_even_IZR (z : Z) : round_half_even (IZR z) = z.
Proof.
  unfold round_half_even; cbv zeta.
  rewrite Int_part_IZR.
  destruct (Rlt_dec (IZR z - IZR z) (1 / 2)); [reflexivity | lra].
Qed.

Lemma round2_hundredths (z : Z) : round2 (IZR z / 100) = IZR z / 100.
Proof.
  unfold round2.
  replace (IZR z / 100 * 100) with (IZR z) by lra.
  now rewrite round_half_even_IZR.
Qed.

Lemma round2_0 : round2 0 = 0.
Proof.
  replace 0 with (IZR 0 / 100) by lra. apply round2_hundredths.
Qed.

Lemma round_half_even_close (y : R) :
  - (1 / 2) <= IZR (round_half_even y) - y <= 1 / 2.
Proof.
  unfold round_half_even; cbv zeta.
  destruct (base_Int_part y) as [Hlo Hhi].
  destruct (Rlt_dec _ _) as [Hd | Hd].
  - lra.
  - destruct (Rlt_dec _ _) as [Hu | Hu].
    + rewrite plus_IZR. lra.
    + destruct (Z.even _); [|rewrite plus_IZR]; lra.
Qed.

Lemma round2_close (x : R) : - 0.005 <= round2 x - x <= 0.005.
Proof.
  unfold round2.
  pose proof (round_half_even_close (x * 100)). lra.
Qed.

Lemma round2_grid (x : R) : exists z : Z, round2 x = IZR z / 100.
Proof. now exists (round_half_even (x * 100)). Qed.

(** ** The sweep loop *)

Section Sweep.

Variable optimize : Model -> Solution.

Lemma sweep_snoc (m : Model) (gs : list GearConfig) (g : GearConfig) :
  sweep optimize m (gs ++ [g]) = simulate_gear optimize (sweep optimize m gs) g.
Proof.
  unfold sweep. now rewrite fold_left_app.
Qed.

Lemma sweep_length (m : Model) (gs : list GearConfig) :
  length (snd (sweep optimize m gs)) = length gs.
Proof.
  induction gs as [|g gs IH] using rev_ind; [reflexivity|].
  rewrite sweep_snoc. cbn [simulate_gear snd].
  rewrite !length_app, IH. reflexivity.
Qed.

Lemma model_at_solve_last (m : Model) (gs : list GearConfig) (g : GearConfig) :
  model_at_solve optimize m (gs ++ [g]) (length gs) =
  apply_gear g (fst (sweep optimize m gs)).
Proof.
  unfold model_at_solve.
  rewrite firstn_all2 by (rewrite length_app; cbn; lia).
  now rewrite sweep_snoc.
Qed.

Lemma model_at_solve_app (m : Model) (gs gs' : list GearConfig) (k : nat) :
  (k < length gs)%nat ->
  model_at_solve optimize m (gs ++ gs') k = model_at_solve optimize m gs k.
Proof.
  intros Hk. unfold model_at_solve.
  rewrite firstn_app.
  replace (S k - length gs)%nat with 0%nat by lia.
  cbn [firstn]. now rewrite app_nil_r.
Qed.

(** Row [k] of [results] is the row recorded for gear [k] from the solution
    of the model as it stood after gear [k]'s bounds were set. *)
Lemma sweep_lookup (m : Model) (gs : list GearConfig) (k : nat)
    (gear : GearConfig) :
  gs !! k = Some gear ->
  snd (sweep optimize m gs) !! k =
    Some (record_result gear (optimize (model_at_solve optimize m gs k))).
Proof.
  revert k gear.
  induction gs as [|g gs IH] using rev_ind; intros k gear Hk; [done|].
  rewrite sweep_snoc. cbn [simulate_gear snd].
  destruct (decide (k < length gs)%nat) as [Hlt | Hge].
  - rewrite lookup_app_l in Hk by assumption.
    rewrite lookup_app_l by (now rewrite sweep_length).
    rewrite model_at_solve_app by assumption.
    now apply IH.
  - apply lookup_lt_Some in Hk as Hb. rewrite length_app in Hb. cbn in Hb.
    assert (k = length gs) as -> by lia.
    rewrite lookup_app_r in Hk by lia.
    rewrite Nat.sub_diag in Hk. cbn in Hk. injection Hk as ->.
    rewrite lookup_app_r by (rewrite sweep_length; lia).
    rewrite sweep_length, Nat.sub_diag. cbn.
    now rewrite model_at_solve_last.
Qed.

Lemma sweep_names (m : Model) (gs : list GearConfig) :
  map Gear (snd (sweep optimize m gs)) = map name gs.
Proof.
  induction gs as [|g gs IH] using rev_ind; [reflexivity|].
  rewrite sweep_snoc. cbn [simulate_gear snd].
  rewrite !map_app, IH. reflexivity.
Qed.

(** A row exists only for a gear of the list, and is that gear's row. *)
Lemma sweep_lookup_inv (m : Model) (gs : list GearConfig) (k : nat)
    (r : Result) :
  snd (sweep optimize m gs) !! k = Some r ->
  exists gear, gs !! k = Some gear /\
    r = record_result gear (optimize (model_at_solve optimize m gs k)).
Proof.
  intros Hr.
  apply lookup_lt_Some in Hr as Hk. rewrite sweep_length in Hk.
  destruct (lookup_lt_is_Some_2 gs k Hk) as [gear Hg].
  exists gear. split; [assumption|].
  rewrite (sweep_lookup m gs k gear Hg) in Hr. now injection Hr.
Qed.

Lemma model_at_solve_eq (m : Model) (gs : list GearConfig) (k : nat)
    (gear : GearConfig) :
  gs !! k = Some gear ->
  model_at_solve optimize m gs k =
  apply_gear gear (fst (sweep optimize m (firstn k gs))).
Proof.
  intros Hg. unfold model_at_solve.
  rewrite (take_S_r gs k gear Hg). now rewrite sweep_snoc.
Qed.

(** At gear [k]'s solve the glucose lower bound is that gear's. *)
Lemma model_at_solve_glucose (m : Model) (gs : list GearConfig) (k : nat)
    (gear : GearConfig) :
  gs !! k = Some gear ->
  lower_bound (EX_glc__D_e (model_at_solve optimize m gs k)) = glucose gear.
Proof.
  intros Hg. now rewrite (model_at_solve_eq m gs k gear Hg).
Qed.

Lemma apply_gear_biomass (g : GearConfig) (m : Model) :
  biomass_ub (apply_gear g m) = biomass_ub m * biomass_factor g.
Proof. reflexivity. Qed.

(** Each gear multiplies the bound the previous gear left behind. *)
Lemma fold_biomass (gs : list GearConfig) (st : Model * list Result) :
  biomass_ub (fst (fold_left (simulate_gear optimize) gs st)) =
  biomass_ub (fst st) * fold_right Rmult 1 (map biomass_factor gs).
Proof.
  revert st. induction gs as [|g gs IH]; intros st; cbn.
  - lra.
  - rewrite IH. cbn [simulate_gear fst]. rewrite apply_gear_biomass. lra.
Qed.

Lemma sweep_biomass (m : Model) (gs : list GearConfig) :
  biomass_ub (fst (sweep optimize m gs)) =
  biomass_ub m * fold_right Rmult 1 (map biomass_factor gs).
Proof. apply fold_biomass. Qed.

End Sweep.

(** ** The stress functions *)

Section Stress.

Lemma stress_penalty_pos (u : R) : 0 < calculate_stress_penalty u.
Proof.
  unfold calculate_stress_penalty; cbv zeta.
  rewrite py_min_Rmin.
  apply Rmin_glb_lt; [|lra].
  destruct (Rle_dec _ _); [|destruct (Rle_dec _ _)];
    apply Rdiv_lt_0_compat; try lra; apply exp_pos.
Qed.

Lemma stress_penalty_le_cap (u : R) : calculate_stress_penalty u <= 0.95.
Proof.
  unfold calculate_stress_penalty; cbv zeta.
  rewrite py_min_Rmin. apply Rmin_r.
Qed.

Lemma exp_le_mono (x y : R) : x <= y -> exp x <= exp y.
Proof.
  intros [Hlt | ->]; [left; now apply exp_increasing | right; reflexivity].
Qed.

Lemma pow_strict_mono (x y : R) : 0 <= x < y -> Py.pow x 1.8 < Py.pow y 1.8.
Proof.
  intros [Hx Hxy]. unfold Py.pow.
  destruct (Req_dec_T y 0) as [->|Hy]; [lra|].
  destruct (Req_dec_T x 0) as [->|Hx0].
  - unfold Rpower. apply exp_pos.
  - apply Rlt_Rpower_l; lra.
Qed.

Lemma pow_mono (x y : R) : 0 <= x <= y -> Py.pow x 1.8 <= Py.pow y 1.8.
Proof.
  intros [Hx [Hlt | ->]]; [|lra].
  left. apply pow_strict_mono. lra.
Qed.

Lemma pow_200 : 200 <= Py.pow 200 1.8.
Proof.
  unfold Py.pow. destruct (Req_dec_T 200 0); [lra|].
  rewrite <- (Rpower_1 200) at 1 by lra.
  apply Rle_Rpower; lra.
Qed.

Lemma stress_cost_eq (g : R) :
  0 <= g -> calculate_stress_cost g = Rmin (Py.pow (g * 0.02) 1.8) 200.
Proof.
  intros Hg. unfold calculate_stress_cost; cbv zeta.
  rewrite py_min_Rmin, Rabs_right by lra.
  f_equal; lra.
Qed.

Lemma stress_penalty_eq (g : R) :
  0 <= g ->
  calculate_stress_penalty g =
    Rmin 0.95
      (if Rle_dec g 30 then exp (g / 35) / 20
       else if Rle_dec g 80 then exp (g / 25) / 15
       else exp (g / 40) / 10).
Proof.
  intros Hg. unfold calculate_stress_penalty; cbv zeta.
  rewrite py_min_Rmin, Rabs_right, Rmin_comm by lra.
  f_equal.
  destruct (Rle_dec g 30.0), (Rle_dec g 30); try lra;
    destruct (Rle_dec g 80.0), (Rle_dec g 80); lra.
Qed.

End Stress.

(** C5: for an uptake magnitude [g >= 0] the biomass penalty is the smaller
    of 0.95 and [exp(g/35)/20] when [g <= 30], [exp(g/25)/15] when
    [30 < g <= 80], [exp(g/40)/10] when [g > 80]; [g = 30] and [g = 80]
    belong to the lower regime. *)
Theorem capacity_penalty_formula (g : R) :
  0 <= g ->
  (g <= 30 -> calculate_stress_penalty g = Rmin 0.95 (exp (g / 35) / 20)) /\
  (30 < g <= 80 ->
     calculate_stress_penalty g = Rmin 0.95 (exp (g / 25) / 15)) /\
  (80 < g -> calculate_stress_penalty g = Rmin 0.95 (exp (g / 40) / 10)).
Proof.
  intros Hg. rewrite stress_penalty_eq by assumption.
  repeat split; intros Hr;
    destruct (Rle_dec g 30); try lra; destruct (Rle_dec g 80); lra.
Qed.

Lemma capacity_penalty_formula_witness :
  0 <= 30 /\
  calculate_stress_penalty 30 = Rmin 0.95 (exp (30 / 35) / 20) /\
  calculate_stress_penalty 80 = Rmin 0.95 (exp (80 / 25) / 15).
Proof.
  split; [lra|]. split.
  - apply (capacity_penalty_formula 30); lra.
  - apply (capacity_penalty_formula 80); lra.
Defined.

(** C7: for [g >= 0] the biomass penalty lies in [[0, 0.95]], and inside each
    of the regimes [g <= 30], [30 < g <= 80], [g > 80] it does not decrease
    as [g] grows. *)
Theorem capacity_penalty_range_monotone (g1 g2 : R) :
  0 <= g1 -> g1 <= g2 ->
  g2 <= 30 \/ (30 < g1 /\ g2 <= 80) \/ 80 < g1 ->
  0 <= calculate_stress_penalty g1 <= 0.95 /\
  calculate_stress_penalty g1 <= calculate_stress_penalty g2.
Proof.
  intros H1 H12 Hreg. split.
  - split; [left; apply stress_penalty_pos | apply stress_penalty_le_cap].
  - rewrite !stress_penalty_eq by lra.
    apply Rle_min_compat_l.
    destruct (Rle_dec g1 30), (Rle_dec g2 30); try lra;
      try (destruct (Rle_dec g1 80), (Rle_dec g2 80); try lra);
      apply Rmult_le_compat_r; try lra; apply exp_le_mono; lra.
Qed.

Lemma capacity_penalty_range_monotone_witness :
  0 <= 40 /\ 40 <= 80 /\
  0 <= calculate_stress_penalty 40 <= 0.95 /\
  calculate_stress_penalty 40 <= calculate_stress_penalty 80.
Proof.
  split; [lra|]. split; [lra|].
  apply (capacity_penalty_range_monotone 40 80); lra.
Defined.

(** ** The biomass bound *)

Lemma biomass_factor_floor (g : GearConfig) : 0.001 <= biomass_factor g.
Proof.
  unfold biomass_factor. rewrite py_max_Rmax. apply Rmax_l.
Qed.

Lemma biomass_factor_lt_1 (g : GearConfig) :
  0 <= burden g -> biomass_factor g < 1.
Proof.
  intros Hb. unfold biomass_factor. rewrite py_max_Rmax.
  pose proof (stress_penalty_pos (glucose g)).
  apply Rmax_lub_lt; lra.
Qed.


Lemma exp_16_5 : 14.5 < exp (16 / 5).
Proof.
  assert (H : 7 / 5 < exp (2 / 5)).
  { pose proof (exp_ineq1 (2 / 5)). lra. }
  assert (H2 : 49 / 25 < exp (4 / 5)).
  { replace (4 / 5) with (2 / 5 + 2 / 5) by lra. rewrite exp_plus. nra. }
  assert (H4 : 2401 / 625 < exp (8 / 5)).
  { replace (8 / 5) with (4 / 5 + 4 / 5) by lra. rewrite exp_plus. nra. }
  replace (16 / 5) with (8 / 5 + 8 / 5) by lra. rewrite exp_plus. nra.
Qed.

(** The third literal gear already sits on the floor. *)
Lemma gear3_factor :
  biomass_factor
    {| name := "Gear 3"; glucose := -80.0; oxygen := -60.0; burden := 0.12 |}
  = 0.001.
Proof.
  unfold biomass_factor, calculate_stress_penalty; cbn [glucose burden].
  rewrite py_max_Rmax, py_min_Rmin, Rabs_left by lra.
  replace (- -80.0 / 25) with (16 / 5) by lra.
  pose proof exp_16_5.
  destruct (Rle_dec _ _); [lra|]. destruct (Rle_dec _ _); [|lra].
  rewrite Rmin_right by lra. apply Rmax_left. lra.
Qed.

(** C1: the script reads the biomass upper bound inside the loop, after the
    earlier gears have overwritten it.  At gear [k]'s solve the bound is the
    pre-sweep bound times the factors of all gears up to [k]; at the second
    literal gear it is strictly below the pre-sweep bound times that gear's
    own factor. *)
Theorem biomass_bound_compounds (optimize : Model -> Solution) (m : Model) :
  0 < biomass_ub m ->
  (forall k : nat,
     biomass_ub (model_at_solve optimize m gears k) =
     biomass_ub m *
       fold_right Rmult 1 (map biomass_factor (firstn (S k) gears))) /\
  biomass_ub (model_at_solve optimize m gears 1) <
    biomass_ub m *
      Py.max 0.001 (1 - 0.05 - calculate_stress_penalty (-30.0)).
Proof.
  intros Hm. split.
  - intros k. apply sweep_biomass.
  - unfold model_at_solve. rewrite sweep_biomass.
    cbn [gears firstn map fold_right].
    set (g1 := {| name := "Gear 1" |}). set (g2 := {| name := "Gear 2" |}).
    change (Py.max 0.001 (1 - 0.05 - calculate_stress_penalty (-30.0)))
      with (biomass_factor g2).
    assert (H1 : biomass_factor g1 < 1)
      by (apply biomass_factor_lt_1; cbn; lra).
    pose proof (biomass_factor_floor g2) as H2.
    assert (Hp : 0 < biomass_ub m * biomass_factor g2)
      by (apply Rmult_lt_0_compat; lra).
    nra.
Qed.

Lemma biomass_bound_compounds_witness :
  0 < biomass_ub example_model /\
  biomass_ub (model_at_solve no_solution example_model gears 1) <
    biomass_ub example_model *
      Py.max 0.001 (1 - 0.05 - calculate_stress_penalty (-30.0)).
Proof.
  assert (H : 0 < biomass_ub example_model) by (cbn; lra).
  split; [exact H|].
  apply (biomass_bound_compounds no_solution example_model H).
Defined.

(** C3: because the factors compound, the bound in effect at the third
    literal gear's solve is below 0.001 times the pre-sweep bound. *)
Theorem biomass_bound_below_floor (optimize : Model -> Solution) (m : Model) :
  0 < biomass_ub m ->
  biomass_ub (model_at_solve optimize m gears 2) < 0.001 * biomass_ub m.
Proof.
  intros Hm. unfold model_at_solve. rewrite sweep_biomass.
  cbn [gears firstn map fold_right]. rewrite gear3_factor.
  set (g1 := {| name := "Gear 1" |}). set (g2 := {| name := "Gear 2" |}).
  assert (H1 : biomass_factor g1 < 1) by (apply biomass_factor_lt_1; cbn; lra).
  assert (H2 : biomass_factor g2 < 1) by (apply biomass_factor_lt_1; cbn; lra).
  pose proof (biomass_factor_floor g1) as F1.
  pose proof (biomass_factor_floor g2) as F2.
  assert (Hp : biomass_factor g1 * biomass_factor g2 < 1) by nra.
  nra.
Qed.

Lemma biomass_bound_below_floor_witness :
  0 < biomass_ub example_model /\
  biomass_ub (model_at_solve no_solution example_model gears 2) <
    0.001 * biomass_ub example_model.
Proof.
  assert (H : 0 < biomass_ub example_model) by (cbn; lra).
  split; [exact H|].
  apply (biomass_bound_below_floor no_solution example_model H).
Defined.

(** ** Recorded rows *)

Lemma fluxes_get_value (s : Solution) (key : string) :
  value (fluxes_get s key) = default 0 (fluxes s !! key).
Proof.
  unfold fluxes_get. destruct (fluxes s !! key); cbn; lra.
Qed.

Lemma value_round (n : number) : value (round n) = round2 (value n).
Proof. now destruct n. Qed.

(** [round(x, 2) if x else 0.0] holds the rounded value in either branch. *)
Lemma value_round_if_truthy (n : number) :
  value (if truthy n then round n else PyFloat 0.0) = round2 (value n).
Proof.
  unfold truthy. destruct (Req_dec_T (value n) 0) as [Hz | Hz].
  - rewrite Hz, round2_0. cbn. lra.
  - apply value_round.
Qed.

Lemma record_growth_none (gear : GearConfig) (s : Solution) :
  objective_value s = None ->
  Growth_Rate (record_result gear s) = PyFloat 0.0.
Proof. intros H. unfold record_result; cbn. now rewrite H. Qed.

Lemma record_growth_some (gear : GearConfig) (s : Solution) (g : R) :
  objective_value s = Some g ->
  value (Growth_Rate (record_result gear s)) = round2 g.
Proof.
  intros H. unfold record_result; cbn [Growth_Rate]. rewrite H.
  apply (value_round_if_truthy (PyFloat g)).
Qed.

Lemma record_atp (gear : GearConfig) (s : Solution) :
  value (ATP_Production (record_result gear s)) =
  round2 (default 0 (fluxes s !! "ATPS4rpp")).
Proof.
  unfold record_result; cbn [ATP_Production].
  now rewrite value_round_if_truthy, fluxes_get_value.
Qed.

Lemma record_glucose (gear : GearConfig) (s : Solution) :
  value (Glucose_Uptake (record_result gear s)) =
  round2 (default 0 (fluxes s !! "EX_glc__D_e")).
Proof.
  unfold record_result; cbn [Glucose_Uptake].
  now rewrite value_round, fluxes_get_value.
Qed.

Lemma record_lactate (gear : GearConfig) (s : Solution) :
  value (Lactate_Production (record_result gear s)) =
  round2 (default 0 (fluxes s !! "EX_lac__D_e")).
Proof.
  unfold record_result; cbn [Lactate_Production].
  now rewrite value_round, fluxes_get_value.
Qed.

Lemma record_ethanol (gear : GearConfig) (s : Solution) :
  value (Ethanol_Production (record_result gear s)) =
  round2 (default 0 (fluxes s !! "EX_etoh_e")).
Proof.
  unfold record_result; cbn [Ethanol_Production].
  now rewrite value_round, fluxes_get_value.
Qed.

(** C8: the sweep over the five literal gears records exactly five rows, in
    gear order, each row built from that gear's solution; a reaction absent
    from the solution's fluxes (or an absent objective value) leaves 0.0 in
    the row's field. *)
Theorem sweep_five_results (optimize : Model -> Solution) (m : Model) :
  let results := snd (sweep optimize m gears) in
  length results = 5%nat /\
  map Gear results =
    ["Gear 1"; "Gear 2"; "Gear 3"; "Gear 4"; "Gear 5"]%string /\
  forall (k : nat) (r : Result),
    results !! k = Some r ->
    exists gear : GearConfig,
      gears !! k = Some gear /\
      let solution := optimize (model_at_solve optimize m gears k) in
      r = record_result gear solution /\
      (objective_value solution = None -> value (Growth_Rate r) = 0) /\
      (fluxes solution !! "ATPS4rpp" = None ->
         value (ATP_Production r) = 0) /\
      (fluxes solution !! "EX_glc__D_e" = None ->
         value (Glucose_Uptake r) = 0) /\
      (fluxes solution !! "EX_lac__D_e" = None ->
         value (Lactate_Production r) = 0) /\
      (fluxes solution !! "EX_etoh_e" = None ->
         value (Ethanol_Production r) = 0).
Proof.
  cbv zeta. split; [|split].
  - now rewrite sweep_length.
  - now rewrite sweep_names.
  - intros k r Hr.
    destruct (sweep_lookup_inv optimize m gears k r Hr) as (gear & Hg & ->).
    exists gear. split; [assumption|]. split; [reflexivity|].
    repeat split; intros Hnone.
    + rewrite record_growth_none by assumption. cbn. lra.
    + rewrite record_atp, Hnone. apply round2_0.
    + rewrite record_glucose, Hnone. apply round2_0.
    + rewrite record_lactate, Hnone. apply round2_0.
    + rewrite record_ethanol, Hnone. apply round2_0.
Qed.

Lemma sweep_five_results_witness :
  length (snd (sweep no_solution example_model gears)) = 5%nat /\
  map Gear (snd (sweep no_solution example_model gears)) =
    ["Gear 1"; "Gear 2"; "Gear 3"; "Gear 4"; "Gear 5"]%string.
Proof.
  split; apply (sweep_five_results no_solution example_model).
Defined.

(** ** Gear configurations are not validated *)


(** ** A solve without an objective value *)

(** C4, as stated, fails: with no objective value the flux fields are still
    read from the solution, here a glucose flux of -10. *)
Lemma infeasible_solve_keeps_fluxes :
  ~ (forall (gear : GearConfig) (s : Solution),
       objective_value s = None \/ objective_value s = Some 0 ->
       let r := record_result gear s in
       value (Growth_Rate r) = 0 /\
       value (ATP_Production r) = 0 /\
       value (Glucose_Uptake r) = 0 /\
       value (Lactate_Production r) = 0 /\
       value (Ethanol_Production r) = 0).
Proof.
  intros H.
  destruct (H bad_gear infeasible_with_fluxes (or_introl eq_refl))
    as (_ & _ & Hg & _).
  rewrite record_glucose in Hg. unfold infeasible_with_fluxes in Hg.
  cbn [fluxes] in Hg. rewrite lookup_singleton_eq in Hg. cbn in Hg.
  pose proof (round2_close (-10)). lra.
Qed.

(** C4, amended: when the solver's objective value for a gear is [None] or
    0.0, the row recorded for that gear has growth rate 0.0; its flux fields
    are the solution's fluxes rounded to two decimals (0.0 for an absent
    reaction); nothing is raised and every gear of the sweep still gets its
    row. *)
Theorem infeasible_solve_recorded (optimize : Model -> Solution) (m : Model)
    (gs : list GearConfig) (k : nat) (gear : GearConfig) :
  gs !! k = Some gear ->
  let solution := optimize (model_at_solve optimize m gs k) in
  objective_value solution = None \/ objective_value solution = Some 0 ->
  exists r : Result,
    snd (sweep optimize m gs) !! k = Some r /\
    Growth_Rate r = PyFloat 0.0 /\
    value (ATP_Production r) =
      round2 (default 0 (fluxes solution !! "ATPS4rpp")) /\
    value (Glucose_Uptake r) =
      round2 (default 0 (fluxes solution !! "EX_glc__D_e")) /\
    value (Lactate_Production r) =
      round2 (default 0 (fluxes solution !! "EX_lac__D_e")) /\
    value (Ethanol_Production r) =
      round2 (default 0 (fluxes solution !! "EX_etoh_e")) /\
    length (snd (sweep optimize m gs)) = length gs.
Proof.
  intros Hg solution Hobj.
  exists (record_result gear solution).
  split; [now apply sweep_lookup|].
  split.
  - destruct Hobj as [Hn | Hz].
    + now apply record_growth_none.
    + unfold record_result; cbn [Growth_Rate]. rewrite Hz.
      unfold truthy; cbn [value].
      destruct (Req_dec_T 0 0); [reflexivity | lra].
  - split; [apply record_atp|]. split; [apply record_glucose|].
    split; [apply record_lactate|]. split; [apply record_ethanol|].
    apply sweep_length.
Qed.

Lemma infeasible_solve_recorded_witness :
  exists r : Result,
    snd (sweep no_solution example_model gears) !! 0%nat = Some r /\
    Growth_Rate r = PyFloat 0.0.
Proof.
  destruct (infeasible_solve_recorded no_solution example_model gears 0
              {| name := "Gear 1"; glucose := -10.0; oxygen := -18.0;
                 burden := 0.0 |} eq_refl (or_introl eq_refl))
    as (r & Hr & Hgrowth & _).
  exists r. split; assumption.
Defined.

(** ** Fold improvements *)

Lemma value_abs (n : number) : value (abs n) = Rabs (value n).
Proof. now destruct n. Qed.

(** A non-zero divisor: the quotient, whatever the kinds of float. *)
Lemma truediv_nonzero (a b : number) :
  value b <> 0 -> truediv a b = Return (Finite (value a / value b)).
Proof.
  intros Hb. unfold truediv.
  destruct a as [x | x], b as [y | y]; cbn [value] in *;
    destruct (Req_dec_T y 0); try lra; reflexivity.
Qed.

(** A zero divisor under a non-zero numpy dividend: [inf], nothing raised. *)
Lemma truediv_np_zero (a b : number) :
  is_np a = true -> value a <> 0 -> value b = 0 ->
  truediv a b = Return Infinite.
Proof.
  intros Hnp Ha Hb. unfold truediv.
  destruct a as [x | x]; [discriminate|].
  destruct b as [y | y]; cbn [value] in *;
    destruct (Req_dec_T y 0); try lra;
    destruct (Req_dec_T x 0); try lra; reflexivity.
Qed.

(** Two Python floats and a zero divisor: [ZeroDivisionError]. *)
Lemma truediv_py_zero (x : R) :
  truediv (PyFloat x) (PyFloat 0) = Raise ZeroDivisionError.
Proof.
  unfold truediv. destruct (Req_dec_T 0 0); [reflexivity | lra].
Qed.

(** With no zero in the first row, every later row gets its three ratios,
    each a quotient of the stored values. *)
Lemma fold_loop_nonzero (gear1 : Result) (rest : list Result) :
  value (Glucose_Uptake gear1) <> 0 ->
  value (ATP_Production gear1) <> 0 ->
  value (Growth_Rate gear1) <> 0 ->
  fold_loop gear1 rest =
  Return
    (map (fun gear =>
            {| glucose_fold :=
                 Finite (Rabs (value (Glucose_Uptake gear)) /
                         Rabs (value (Glucose_Uptake gear1)));
               atp_fold :=
                 Finite (value (ATP_Production gear) /
                         value (ATP_Production gear1));
               growth_fold :=
                 Finite (value (Growth_Rate gear) /
                         value (Growth_Rate gear1)) |}) rest).
Proof.
  intros Hglc Hatp Hgrowth.
  induction rest as [|gear rest IH]; [reflexivity|].
  cbn [fold_loop map]. rewrite IH. unfold fold_change.
  rewrite !truediv_nonzero
    by (rewrite ?value_abs; try apply Rabs_no_R0; assumption).
  rewrite !value_abs. reflexivity.
Qed.

(** C10: every metric of a recorded row is the solver's value rounded to two
    decimals (a multiple of 0.01 at most 0.005 away from it), and the fold
    changes are the fold-improvement loop run on the recorded rows: quotients
    of the stored, rounded values. *)
Theorem metrics_rounded_then_folded (optimize : Model -> Solution)
    (m : Model) :
  (forall (k : nat) (r : Result),
     fst (main optimize m) !! k = Some r ->
     let solution := optimize (model_at_solve optimize m gears k) in
     (forall g : R, objective_value solution = Some g ->
        value (Growth_Rate r) = round2 g) /\
     (forall v : R, fluxes solution !! "ATPS4rpp" = Some v ->
        value (ATP_Production r) = round2 v) /\
     (forall v : R, fluxes solution !! "EX_glc__D_e" = Some v ->
        value (Glucose_Uptake r) = round2 v) /\
     (forall v : R, fluxes solution !! "EX_lac__D_e" = Some v ->
        value (Lactate_Production r) = round2 v) /\
     (forall v : R, fluxes solution !! "EX_etoh_e" = Some v ->
        value (Ethanol_Production r) = round2 v)) /\
  (forall x : R,
     (exists z : Z, round2 x = IZR z / 100) /\
     - 0.005 <= round2 x - x <= 0.005) /\
  snd (main optimize m) = fold_improvements (fst (main optimize m)) /\
  (forall (gear1 : Result) (rest : list Result),
     value (Glucose_Uptake gear1) <> 0 ->
     value (ATP_Production gear1) <> 0 ->
     value (Growth_Rate gear1) <> 0 ->
     fold_improvements (gear1 :: rest) =
     Return
       (map (fun gear =>
               {| glucose_fold :=
                    Finite (Rabs (value (Glucose_Uptake gear)) /
                            Rabs (value (Glucose_Uptake gear1)));
                  atp_fold :=
                    Finite (value (ATP_Production gear) /
                            value (ATP_Production gear1));
                  growth_fold :=
                    Finite (value (Growth_Rate gear) /
                            value (Growth_Rate gear1)) |}) rest)).
Proof.
  split; [|split; [|split]].
  - intros k r Hr. cbn [main fst] in Hr.
    destruct (sweep_lookup_inv optimize m gears k r Hr) as (gear & Hg & ->).
    cbv zeta. repeat split.
    + intros g Hobj. now apply record_growth_some.
    + intros v Hv. now rewrite record_atp, Hv.
    + intros v Hv. now rewrite record_glucose, Hv.
    + intros v Hv. now rewrite record_lactate, Hv.
    + intros v Hv. now rewrite record_ethanol, Hv.
  - intros x. split; [apply round2_grid | apply round2_close].
  - reflexivity.
  - intros gear1 rest. cbn [fold_improvements]. apply fold_loop_nonzero.
Qed.

Lemma metrics_rounded_then_folded_witness :
  value (Glucose_Uptake example_row) <> 0 /\
  value (ATP_Production example_row) <> 0 /\
  value (Growth_Rate example_row) <> 0 /\
  fold_improvements [example_row; example_row] =
  Return
    [{| glucose_fold := Finite (Rabs (-10) / Rabs (-10));
        atp_fold := Finite (50 / 50);
        growth_fold := Finite (0.5 / 0.5) |}].
Proof.
  assert (H1 : value (Glucose_Uptake example_row) <> 0) by (cbn; lra).
  assert (H2 : value (ATP_Production example_row) <> 0) by (cbn; lra).
  assert (H3 : value (Growth_Rate example_row) <> 0) by (cbn; lra).
  repeat (split; [assumption|]).
  destruct (metrics_rounded_then_folded no_solution example_model)
    as (_ & _ & _ & Hfold).
  exact (Hfold example_row [example_row] H1 H2 H3).
Defined.

(** ** A zero in the first row *)

Lemma solver_first (g : GearConfig) (m : Model) :
  glucose g = -10.0 ->
  zero_baseline_solver (apply_gear g m) = idle_solution.
Proof.
  intros Hg. unfold zero_baseline_solver.
  destruct (Req_dec_T _ _) as [_ | Hne]; [reflexivity|].
  now destruct Hne.
Qed.

Lemma solver_later (g : GearConfig) (m : Model) :
  glucose g <> -10.0 ->
  zero_baseline_solver (apply_gear g m) = busy_solution.
Proof.
  intros Hg. unfold zero_baseline_solver.
  destruct (Req_dec_T _ _) as [He | _]; [|reflexivity].
  now destruct Hg.
Qed.

Lemma round2_IZR (z : Z) : round2 (IZR z) = IZR z.
Proof.
  replace (IZR z) with (IZR (z * 100) / 100) at 1 by (rewrite mult_IZR; lra).
  rewrite round2_hundredths, mult_IZR. lra.
Qed.

Lemma idle_row (g : GearConfig) :
  record_result g idle_solution =
  {| Gear := name g; Growth_Rate := PyFloat (round2 0.5);
     ATP_Production := PyFloat 0.0;
     Glucose_Uptake := NpFloat64 (round2 0);
     Lactate_Production := PyFloat (round2 0.0);
     Ethanol_Production := PyFloat (round2 0.0) |}.
Proof.
  unfold record_result, fluxes_get, idle_solution, truthy.
  cbn [objective_value fluxes value].
  rewrite lookup_insert_eq.
  rewrite !lookup_insert_ne by done.
  rewrite lookup_singleton_eq, !lookup_singleton_ne by done.
  cbn [value].
  destruct (Req_dec_T 0.5 0); [lra|].
  destruct (Req_dec_T 0 0); [|lra].
  reflexivity.
Qed.

Lemma busy_row (g : GearConfig) :
  record_result g busy_solution =
  {| Gear := name g; Growth_Rate := PyFloat (round2 0.5);
     ATP_Production := NpFloat64 (round2 50);
     Glucose_Uptake := NpFloat64 (round2 (-30));
     Lactate_Production := PyFloat (round2 0.0);
     Ethanol_Production := PyFloat (round2 0.0) |}.
Proof.
  unfold record_result, fluxes_get, busy_solution, truthy.
  cbn [objective_value fluxes value].
  rewrite lookup_insert_eq.
  rewrite !lookup_insert_ne by done.
  rewrite lookup_singleton_eq, !lookup_singleton_ne by done.
  cbn [value].
  destruct (Req_dec_T 0.5 0); [lra|].
  destruct (Req_dec_T 50 0); [lra|].
  reflexivity.
Qed.

Lemma idle_busy_fold (g1 g : GearConfig) :
  fold_change (record_result g1 idle_solution) (record_result g busy_solution)
  = Return {| glucose_fold := Infinite; atp_fold := Infinite;
              growth_fold := Finite 1 |}.
Proof.
  rewrite idle_row, busy_row. unfold fold_change.
  cbn [Glucose_Uptake ATP_Production Growth_Rate].
  assert (H05 : round2 0.5 = 0.5).
  { replace 0.5 with (IZR 50 / 100) by lra. apply round2_hundredths. }
  rewrite (truediv_np_zero (abs _) (abs _)); cycle 1.
  { reflexivity. }
  { cbn. rewrite (round2_IZR (-30)). apply Rabs_no_R0. lra. }
  { cbn. rewrite round2_0. apply Rabs_R0. }
  rewrite (truediv_np_zero (NpFloat64 _) (PyFloat _)); cycle 1.
  { reflexivity. }
  { cbn. rewrite (round2_IZR 50). lra. }
  { cbn. lra. }
  rewrite truediv_nonzero by (cbn; lra).
  cbn. rewrite H05. do 2 f_equal. f_equal. lra.
Qed.

(** C2: the loop divides by the first row's values unguarded.  When the
    first gear's solution has a glucose flux and an ATP flux of 0.0 and the
    later gears' do not, the script runs to the end and every later gear's
    glucose and ATP fold changes are [inf]; nothing is raised. *)
Theorem zero_baseline_not_guarded (m : Model) :
  snd (main zero_baseline_solver m) =
  Return
    (replicate 4
       {| glucose_fold := Infinite; atp_fold := Infinite;
          growth_fold := Finite 1 |}).
Proof.
  unfold main, sweep. cbn [gears fold_left simulate_gear fst snd app].
  rewrite solver_first by reflexivity.
  rewrite !solver_later by (cbn; lra).
  cbn [fold_improvements fold_loop].
  rewrite !idle_busy_fold. reflexivity.
Qed.

(** * Further properties of the script *)

(** ** The model over a sweep *)

Section SweepState.

Variable optimize : Model -> Solution.

Lemma simulate_gear_eq (m : Model) (acc : list Result) (g : GearConfig) :
  simulate_gear optimize (m, acc) g =
  (apply_gear g m, acc ++ [record_result g (optimize (apply_gear g m))]).
Proof. reflexivity. Qed.

Lemma fold_simulate_acc (gs : list GearConfig) (m : Model)
    (acc : list Result) :
  fold_left (simulate_gear optimize) gs (m, acc) =
  (fst (sweep optimize m gs), acc ++ snd (sweep optimize m gs)).
Proof.
  revert m acc. induction gs as [|g gs IH]; intros m acc.
  - cbn. now rewrite app_nil_r.
  - unfold sweep. cbn [fold_left]. rewrite !simulate_gear_eq.
    rewrite (IH _ (acc ++ _)), (IH _ ([] ++ _)).
    cbn [fst snd app]. now rewrite <- app_assoc.
Qed.

(** What the loop never writes. *)
Lemma apply_gear_frame (g : GearConfig) (m : Model) :
  upper_bound (EX_glc__D_e (apply_gear g m)) = upper_bound (EX_glc__D_e m) /\
  upper_bound (EX_o2_e (apply_gear g m)) = upper_bound (EX_o2_e m) /\
  lower_bound (BIOMASS_Ec_iML1515_core_75p37M (apply_gear g m)) =
    lower_bound (BIOMASS_Ec_iML1515_core_75p37M m) /\
  upper_bound (ATPM (apply_gear g m)) = upper_bound (ATPM m).
Proof. repeat split. Qed.

Lemma sweep_frame (m : Model) (gs : list GearConfig) :
  upper_bound (EX_glc__D_e (fst (sweep optimize m gs))) =
    upper_bound (EX_glc__D_e m) /\
  upper_bound (EX_o2_e (fst (sweep optimize m gs))) =
    upper_bound (EX_o2_e m) /\
  lower_bound (BIOMASS_Ec_iML1515_core_75p37M (fst (sweep optimize m gs))) =
    lower_bound (BIOMASS_Ec_iML1515_core_75p37M m) /\
  upper_bound (ATPM (fst (sweep optimize m gs))) = upper_bound (ATPM m).
Proof.
  induction gs as [|g gs IH] using rev_ind; [repeat split|].
  rewrite sweep_snoc. cbn [simulate_gear fst].
  destruct (apply_gear_frame g (fst (sweep optimize m gs)))
    as (-> & -> & -> & ->).
  exact IH.
Qed.

End SweepState.

(** X1: a sweep over [gs1 ++ gs2] is the sweep over [gs1] followed by the
    sweep over [gs2] on the model the first one left behind; the rows are
    those of the first followed by those of the second. *)
Theorem sweep_app (optimize : Model -> Solution) (m : Model)
    (gs1 gs2 : list GearConfig) :
  let m1 := fst (sweep optimize m gs1) in
  fst (sweep optimize m (gs1 ++ gs2)) = fst (sweep optimize m1 gs2) /\
  snd (sweep optimize m (gs1 ++ gs2)) =
    snd (sweep optimize m gs1) ++ snd (sweep optimize m1 gs2).
Proof.
  cbv zeta.
  assert (H : sweep optimize m (gs1 ++ gs2) =
              fold_left (simulate_gear optimize) gs2 (sweep optimize m gs1))
    by (unfold sweep; apply fold_left_app).
  rewrite H. destruct (sweep optimize m gs1) as [m1 rows].
  rewrite fold_simulate_acc. cbn [fst snd]. split; reflexivity.
Qed.

(** X2: when gear [k] is solved, the glucose and oxygen lower bounds and the
    ATP maintenance lower bound are that gear's alone, lactate and ethanol
    are bounded by 0 and 1000, and the glucose, oxygen and ATP maintenance
    upper bounds and the biomass lower bound are still those of the loaded
    model. *)
Theorem bounds_at_solve (optimize : Model -> Solution) (m : Model)
    (gs : list GearConfig) (k : nat) (gear : GearConfig) :
  gs !! k = Some gear ->
  let m' := model_at_solve optimize m gs k in
  lower_bound (EX_glc__D_e m') = glucose gear /\
  lower_bound (EX_o2_e m') = oxygen gear /\
  lower_bound (ATPM m') = 35 + calculate_stress_cost (glucose gear) /\
  EX_lac__D_e m' = {| lower_bound := 0; upper_bound := 1000 |} /\
  EX_etoh_e m' = {| lower_bound := 0; upper_bound := 1000 |} /\
  upper_bound (EX_glc__D_e m') = upper_bound (EX_glc__D_e m) /\
  upper_bound (EX_o2_e m') = upper_bound (EX_o2_e m) /\
  lower_bound (BIOMASS_Ec_iML1515_core_75p37M m') =
    lower_bound (BIOMASS_Ec_iML1515_core_75p37M m) /\
  upper_bound (ATPM m') = upper_bound (ATPM m).
Proof.
  intros Hg. cbv zeta.
  destruct (sweep_frame optimize m (firstn (S k) gs)) as (F1 & F2 & F3 & F4).
  fold (model_at_solve optimize m gs k) in F1, F2, F3, F4.
  rewrite (model_at_solve_eq optimize m gs k gear Hg) in *.
  cbn [apply_gear with_EX_glc__D_e with_EX_o2_e with_BIOMASS with_ATPM
       with_EX_lac__D_e with_EX_etoh_e set_lower_bound set_upper_bound
       EX_glc__D_e EX_o2_e ATPM EX_lac__D_e EX_etoh_e lower_bound
       upper_bound] in *.
  repeat split; try assumption; try lra;
    unfold set_upper_bound, set_lower_bound; cbn [lower_bound upper_bound];
    f_equal; lra.
Qed.

Lemma bounds_at_solve_witness :
  lower_bound (EX_glc__D_e (model_at_solve no_solution example_model gears 4))
    = -250.0 /\
  upper_bound (ATPM (model_at_solve no_solution example_model gears 4))
    = 1000.
Proof.
  destruct (bounds_at_solve no_solution example_model gears 4
              {| name := "Gear 5"; glucose := -250.0; oxygen := -150.0;
                 burden := 0.25 |} eq_refl)
    as (H1 & _ & _ & _ & _ & _ & _ & _ & H9).
  split; [exact H1 | exact H9].
Defined.

Lemma stress_cost_range (u : R) : 0 <= calculate_stress_cost u <= 200.
Proof.
  unfold calculate_stress_cost; cbv zeta. rewrite py_min_Rmin. split.
  - apply Rmin_glb; [|lra].
    unfold Py.pow. destruct (Req_dec_T _ _); [lra|].
    left. unfold Rpower. apply exp_pos.
  - etransitivity; [apply Rmin_r | lra].
Qed.

(** ** The biomass bound over a sweep *)

Lemma factor_product_pos (gs : list GearConfig) :
  0 < fold_right Rmult 1 (map biomass_factor gs).
Proof.
  induction gs as [|g gs IH]; cbn; [lra|].
  pose proof (biomass_factor_floor g). apply Rmult_lt_0_compat; lra.
Qed.

Lemma factor_product_floor (gs : list GearConfig) :
  0.001 ^ length gs <= fold_right Rmult 1 (map biomass_factor gs).
Proof.
  induction gs as [|g gs IH]; cbn; [lra|].
  pose proof (biomass_factor_floor g).
  assert (0 <= 0.001 ^ length gs) by (apply pow_le; lra).
  apply Rmult_le_compat; lra.
Qed.

Lemma factor_product_le_1 (gs : list GearConfig) :
  Forall (fun g => 0 <= burden g) gs ->
  fold_right Rmult 1 (map biomass_factor gs) <= 1.
Proof.
  induction 1 as [|g gs Hg _ IH]; cbn; [lra|].
  pose proof (biomass_factor_lt_1 g Hg).
  pose proof (biomass_factor_floor g).
  pose proof (factor_product_pos gs). nra.
Qed.

(** X4: on a model whose glucose, oxygen and biomass upper bounds are not
    negative, whose biomass lower bound is not positive and whose ATP
    maintenance upper bound is at least 235, a sweep over gears with
    non-positive uptake bounds leaves, at every solve, each of the six
    reactions with a lower bound no greater than its upper bound. *)
Theorem sweep_keeps_bounds_ordered (optimize : Model -> Solution)
    (m : Model) (gs : list GearConfig) (k : nat) :
  0 <= upper_bound (EX_glc__D_e m) ->
  0 <= upper_bound (EX_o2_e m) ->
  lower_bound (BIOMASS_Ec_iML1515_core_75p37M m) <= 0 ->
  0 <= biomass_ub m ->
  235 <= upper_bound (ATPM m) ->
  Forall (fun g => glucose g <= 0 /\ oxygen g <= 0) gs ->
  (k < length gs)%nat ->
  bounds_ordered (model_at_solve optimize m gs k).
Proof.
  intros Hglc Ho2 Hlb Hub Hatpm Hgs Hk.
  destruct (lookup_lt_is_Some_2 gs k Hk) as [gear Hg].
  rewrite Forall_lookup in Hgs. destruct (Hgs k gear Hg) as [Gglc Go2].
  pose proof (sweep_biomass optimize m (firstn (S k) gs)) as Hbio.
  fold (model_at_solve optimize m gs k) in Hbio.
  pose proof (factor_product_pos (firstn (S k) gs)) as Hpos.
  unfold biomass_ub in Hbio, Hub.
  destruct (sweep_frame optimize m (firstn (S k) gs)) as (F1 & F2 & F3 & F4).
  fold (model_at_solve optimize m gs k) in F1, F2, F3, F4.
  pose proof (stress_cost_range (glucose gear)) as Hc.
  unfold bounds_ordered, ordered. rewrite F1, F2, F3, F4, Hbio.
  rewrite (model_at_solve_eq optimize m gs k gear Hg).
  cbn [apply_gear with_EX_glc__D_e with_EX_o2_e with_BIOMASS with_ATPM
       with_EX_lac__D_e with_EX_etoh_e set_lower_bound set_upper_bound
       EX_glc__D_e EX_o2_e ATPM EX_lac__D_e EX_etoh_e lower_bound
       upper_bound].
  repeat split; try lra. nra.
Qed.

Lemma sweep_keeps_bounds_ordered_witness :
  bounds_ordered (model_at_solve no_solution example_model gears 4).
Proof.
  apply (sweep_keeps_bounds_ordered no_solution example_model gears 4);
    try (cbn; lra).
  - unfold gears. repeat (constructor; [cbn; lra|]). constructor.
  - cbn. lia.
Defined.

(** X5: on a model with a positive biomass upper bound, a sweep over gears
    with non-negative burdens lowers that bound at every gear: at gear [k]'s
    solve it is below the loaded bound and below the bound of the gear
    before, yet positive and no less than the loaded bound times
    [0.001 ^ (k + 1)]. *)
Theorem biomass_bound_decreases (optimize : Model -> Solution) (m : Model)
    (gs : list GearConfig) (k : nat) :
  0 < biomass_ub m ->
  Forall (fun g => 0 <= burden g) gs ->
  (k < length gs)%nat ->
  let bound := fun j => biomass_ub (model_at_solve optimize m gs j) in
  0.001 ^ S k * biomass_ub m <= bound k /\
  0 < bound k < biomass_ub m /\
  (forall j : nat, S j = k -> bound k < bound j).
Proof.
  intros Hm Hgs Hk. cbv zeta.
  destruct (lookup_lt_is_Some_2 gs k Hk) as [gear Hg].
  assert (Hgear : 0 <= burden gear).
  { rewrite Forall_lookup in Hgs. exact (Hgs k gear Hg). }
  pose proof (biomass_factor_lt_1 gear Hgear) as Hlt.
  pose proof (biomass_factor_floor gear) as Hfl.
  assert (Hprev : forall n,
             0 < biomass_ub (fst (sweep optimize m (firstn n gs))) <=
             biomass_ub m).
  { intros n. rewrite sweep_biomass.
    pose proof (factor_product_pos (firstn n gs)).
    assert (Hn : Forall (fun g => 0 <= burden g) (firstn n gs))
      by now apply Forall_take.
    pose proof (factor_product_le_1 (firstn n gs) Hn).
    split; nra. }
  split; [|split].
  - unfold model_at_solve. rewrite sweep_biomass.
    pose proof (factor_product_floor (firstn (S k) gs)) as Hf.
    rewrite length_take_le in Hf by lia. nra.
  - rewrite (model_at_solve_eq optimize m gs k gear Hg), apply_gear_biomass.
    specialize (Hprev k). split; nra.
  - intros j <-.
    rewrite (model_at_solve_eq optimize m gs (S j) gear Hg), apply_gear_biomass.
    fold (model_at_solve optimize m gs j).
    specialize (Hprev (S j)). fold (model_at_solve optimize m gs j) in Hprev.
    nra.
Qed.

Lemma biomass_bound_decreases_witness :
  0.001 ^ 2 * biomass_ub example_model <=
    biomass_ub (model_at_solve no_solution example_model gears 1) /\
  biomass_ub (model_at_solve no_solution example_model gears 1) <
    biomass_ub (model_at_solve no_solution example_model gears 0).
Proof.
  assert (H1 : 0 < biomass_ub example_model) by (cbn; lra).
  assert (H2 : Forall (fun g => 0 <= burden g) gears).
  { unfold gears. repeat (constructor; [cbn; lra|]). constructor. }
  assert (H3 : (1 < length gears)%nat) by (cbn; lia).
  destruct (biomass_bound_decreases no_solution example_model gears 1
              H1 H2 H3) as (Hfloor & _ & Hstep).
  split; [exact Hfloor | exact (Hstep 0%nat eq_refl)].
Defined.

(** ** The penalty across its regimes *)

Lemma exp_le_inv (x : R) : x < 1 -> exp x <= 1 / (1 - x).
Proof.
  intros Hx.
  pose proof (exp_ineq1_le (- x)) as Hn.
  pose proof (exp_pos x) as Hp.
  assert (Hprod : exp x * exp (- x) = 1)
    by (rewrite <- exp_plus, Rplus_opp_r; apply exp_0).
  apply (Rmult_le_reg_r (1 - x)); [lra|].
  unfold Rdiv. rewrite Rmult_assoc, Rinv_l by lra. nra.
Qed.

Lemma exp_41_20 : exp (41 / 20) < 9.48.
Proof.
  replace (41 / 20) with (1 + (1 + 1 / 20)) by lra.
  rewrite !exp_plus.
  pose proof exp_le_3 as H3. pose proof (exp_pos 1) as Hp.
  pose proof (exp_le_inv (1 / 20)) as Hs.
  assert (Hs' : exp (1 / 20) <= 20 / 19) by (etransitivity; [apply Hs|]; lra).
  pose proof (exp_pos (1 / 20)).
  assert (exp 1 * exp (1 / 20) <= 3 * (20 / 19)) by nra.
  nra.
Qed.

(** X6: from 0 up to 80 the penalty never decreases as the uptake magnitude
    grows, also across the change of formula at 30. *)
Theorem capacity_penalty_monotone_to_80 (g1 g2 : R) :
  0 <= g1 -> g1 <= g2 -> g2 <= 80 ->
  calculate_stress_penalty g1 <= calculate_stress_penalty g2.
Proof.
  intros H1 H12 H2.
  rewrite !stress_penalty_eq by lra.
  apply Rle_min_compat_l.
  pose proof (exp_pos (g2 / 25)).
  destruct (Rle_dec g1 30), (Rle_dec g2 30); try lra;
    destruct (Rle_dec g1 80), (Rle_dec g2 80); try lra.
  - apply Rmult_le_compat_r; [lra|]. apply exp_le_mono. lra.
  - assert (exp (g1 / 35) <= exp (g2 / 25)) by (apply exp_le_mono; lra).
    lra.
  - apply Rmult_le_compat_r; [lra|]. apply exp_le_mono. lra.
Qed.

Lemma capacity_penalty_monotone_to_80_witness :
  calculate_stress_penalty 30 <= calculate_stress_penalty 31.
Proof.
  apply (capacity_penalty_monotone_to_80 30 31); lra.
Defined.

(** X7: the penalty is not monotone over the whole range: at 80 it is at the
    cap of 0.95, and for a magnitude above 80 up to 82 it is strictly
    smaller. *)
Theorem capacity_penalty_drops_after_80 (g : R) :
  80 < g -> g <= 82 ->
  calculate_stress_penalty 80 = 0.95 /\
  calculate_stress_penalty g < calculate_stress_penalty 80.
Proof.
  intros Hlo Hhi.
  assert (H80 : calculate_stress_penalty 80 = 0.95).
  { rewrite stress_penalty_eq by lra.
    destruct (Rle_dec 80 30); [lra|]. destruct (Rle_dec 80 80); [|lra].
    replace (80 / 25) with (16 / 5) by lra.
    pose proof exp_16_5. apply Rmin_left. lra. }
  split; [exact H80|]. rewrite H80.
  rewrite stress_penalty_eq by lra.
  destruct (Rle_dec g 30); [lra|]. destruct (Rle_dec g 80); [lra|].
  assert (Hexp : exp (g / 40) <= exp (41 / 20)) by (apply exp_le_mono; lra).
  pose proof exp_41_20.
  apply Rle_lt_trans with (exp (g / 40) / 10); [apply Rmin_r | lra].
Qed.

Lemma capacity_penalty_drops_after_80_witness :
  calculate_stress_penalty 82 < calculate_stress_penalty 80.
Proof.
  apply (capacity_penalty_drops_after_80 82); lra.
Defined.

(** ** What the divisions raise *)

Lemma truediv_cases (a b : number) :
  (exists q, truediv a b = Return q) \/ truediv a b = Raise ZeroDivisionError.
Proof.
  unfold truediv.
  destruct a as [x | x], b as [y | y]; cbn [value];
    destruct (Req_dec_T y 0); try destruct (Req_dec_T x 0); eauto.
Qed.

(** A division raises exactly on two Python floats with a zero divisor. *)
Lemma truediv_raise_iff (a b : number) :
  truediv a b = Raise ZeroDivisionError <->
  is_np a = false /\ is_np b = false /\ value b = 0.
Proof.
  unfold truediv.
  destruct a as [x | x], b as [y | y]; cbn [value is_np];
    destruct (Req_dec_T y 0); try destruct (Req_dec_T x 0);
    split; try discriminate; try tauto;
    try (intros (H1 & H2 & H3); first [discriminate | contradiction]).
Qed.

Lemma is_np_abs (n : number) : is_np (abs n) = is_np n.
Proof. now destruct n. Qed.

(** One pass of the loop raises exactly when one of its three divisions has
    two Python floats and a zero divisor. *)
Lemma fold_change_raise_iff (gear1 gear : Result) :
  fold_change gear1 gear = Raise ZeroDivisionError <->
  (is_np (Glucose_Uptake gear) = false /\
   is_np (Glucose_Uptake gear1) = false /\
   value (Glucose_Uptake gear1) = 0) \/
  (is_np (ATP_Production gear) = false /\
   is_np (ATP_Production gear1) = false /\
   value (ATP_Production gear1) = 0) \/
  (is_np (Growth_Rate gear) = false /\
   is_np (Growth_Rate gear1) = false /\
   value (Growth_Rate gear1) = 0).
Proof.
  unfold fold_change.
  pose proof (truediv_raise_iff (abs (Glucose_Uptake gear))
                (abs (Glucose_Uptake gear1))) as Hglc.
  rewrite !is_np_abs, value_abs in Hglc.
  assert (Habs : Rabs (value (Glucose_Uptake gear1)) = 0 <->
                 value (Glucose_Uptake gear1) = 0).
  { split; [|intros ->; apply Rabs_R0].
    intros H. destruct (Req_dec (value (Glucose_Uptake gear1)) 0) as [|Hne];
      [assumption|]. now apply Rabs_no_R0 in Hne. }
  rewrite Habs in Hglc.
  pose proof (truediv_raise_iff (ATP_Production gear)
                (ATP_Production gear1)) as Hatp.
  pose proof (truediv_raise_iff (Growth_Rate gear)
                (Growth_Rate gear1)) as Hgrowth.
  destruct (truediv_cases (abs (Glucose_Uptake gear))
              (abs (Glucose_Uptake gear1))) as [[q1 E1] | E1];
    rewrite E1 in *; cbn [bind].
  2: { split; [intros _; left; now apply Hglc | reflexivity]. }
  destruct (truediv_cases (ATP_Production gear) (ATP_Production gear1))
    as [[q2 E2] | E2]; rewrite E2 in *; cbn [bind].
  2: { split; [intros _; right; left; now apply Hatp | reflexivity]. }
  destruct (truediv_cases (Growth_Rate gear) (Growth_Rate gear1))
    as [[q3 E3] | E3]; rewrite E3 in *; cbn [bind].
  2: { split; [intros _; right; right; now apply Hgrowth | reflexivity]. }
  split; [discriminate|].
  intros [H | [H | H]].
  - apply Hglc in H. discriminate.
  - apply Hatp in H. discriminate.
  - apply Hgrowth in H. discriminate.
Qed.

Lemma fold_change_no_index_error (gear1 gear : Result) :
  fold_change gear1 gear <> Raise IndexError.
Proof.
  unfold fold_change.
  destruct (truediv_cases (abs (Glucose_Uptake gear))
              (abs (Glucose_Uptake gear1))) as [[q1 E1] | E1];
    rewrite E1; cbn [bind]; [|discriminate].
  destruct (truediv_cases (ATP_Production gear) (ATP_Production gear1))
    as [[q2 E2] | E2]; rewrite E2; cbn [bind]; [|discriminate].
  destruct (truediv_cases (Growth_Rate gear) (Growth_Rate gear1))
    as [[q3 E3] | E3]; rewrite E3; cbn [bind]; discriminate.
Qed.

Lemma fold_loop_no_index_error (gear1 : Result) (rest : list Result) :
  fold_loop gear1 rest <> Raise IndexError.
Proof.
  induction rest as [|gear rest IH]; cbn [fold_loop]; [discriminate|].
  pose proof (fold_change_no_index_error gear1 gear) as Hfc.
  destruct (fold_change gear1 gear) as [fc | e]; cbn [bind];
    [|congruence].
  destruct (fold_loop gear1 rest) as [fcs | e]; cbn [bind];
    [discriminate | congruence].
Qed.

Lemma fold_loop_length (gear1 : Result) (rest : list Result)
    (fcs : list FoldChange) :
  fold_loop gear1 rest = Return fcs -> length fcs = length rest.
Proof.
  revert fcs. induction rest as [|gear rest IH]; intros fcs; cbn [fold_loop].
  - now intros [= <-].
  - destruct (fold_change gear1 gear) as [fc | e]; cbn [bind]; [|discriminate].
    destruct (fold_loop gear1 rest) as [fcs' | e]; cbn [bind]; [|discriminate].
    intros [= <-]. cbn. f_equal. now apply IH.
Qed.

(** ** Kinds of the recorded numbers *)

Lemma record_growth_py (gear : GearConfig) (s : Solution) :
  is_np (Growth_Rate (record_result gear s)) = false.
Proof.
  unfold record_result; cbn [Growth_Rate].
  destruct (objective_value s) as [g|]; [|reflexivity].
  now destruct (truthy (PyFloat g)).
Qed.

(** The glucose field is a Python float exactly when the flux is absent. *)
Lemma record_glucose_py (gear : GearConfig) (s : Solution) :
  is_np (Glucose_Uptake (record_result gear s)) = false <->
  fluxes s !! "EX_glc__D_e" = None.
Proof.
  unfold record_result, fluxes_get; cbn [Glucose_Uptake].
  destruct (fluxes s !! "EX_glc__D_e"); cbn; split; congruence.
Qed.

(** The ATP field is a Python float exactly when the flux is absent or 0. *)
Lemma record_atp_py (gear : GearConfig) (s : Solution) :
  is_np (ATP_Production (record_result gear s)) = false <->
  default 0 (fluxes s !! "ATPS4rpp") = 0.
Proof.
  unfold record_result, fluxes_get, truthy; cbn [ATP_Production].
  destruct (fluxes s !! "ATPS4rpp") as [v|]; cbn [value default].
  - destruct (Req_dec_T v 0); cbn; split; congruence.
  - destruct (Req_dec_T 0.0 0); [|lra]. cbn. split; [lra | reflexivity].
Qed.

Lemma record_atp_zero (gear : GearConfig) (s : Solution) :
  default 0 (fluxes s !! "ATPS4rpp") = 0 ->
  ATP_Production (record_result gear s) = PyFloat 0.0.
Proof.
  unfold record_result, fluxes_get, truthy; cbn [ATP_Production].
  destruct (fluxes s !! "ATPS4rpp") as [v|]; cbn [value default].
  - intros H. cbn in H. rewrite H.
    destruct (Req_dec_T 0 0); [reflexivity | lra].
  - intros _. destruct (Req_dec_T 0.0 0); [reflexivity | lra].
Qed.

(** X8: one pass of the fold-improvement loop over two recorded rows raises
    [ZeroDivisionError] exactly when the glucose flux is absent from both
    solutions, or the ATP flux is absent or 0 in both, or the first row's
    stored growth rate is 0; it never raises anything else. *)
Theorem fold_change_raises_iff (gear1 gear : GearConfig)
    (s1 s : Solution) :
  let row1 := record_result gear1 s1 in
  let row := record_result gear s in
  (fold_change row1 row = Raise ZeroDivisionError <->
   (fluxes s1 !! "EX_glc__D_e" = None /\ fluxes s !! "EX_glc__D_e" = None) \/
   (default 0 (fluxes s1 !! "ATPS4rpp") = 0 /\
    default 0 (fluxes s !! "ATPS4rpp") = 0) \/
   value (Growth_Rate row1) = 0) /\
  fold_change row1 row <> Raise IndexError.
Proof.
  cbv zeta. split; [|apply fold_change_no_index_error].
  rewrite fold_change_raise_iff.
  rewrite !record_growth_py, !record_glucose_py, !record_atp_py.
  split.
  - intros [(H1 & H2 & _) | [(H1 & H2 & _) | (_ & _ & H)]]; tauto.
  - intros [(H1 & H2) | [(H1 & H2) | H]].
    + left. repeat split; try assumption.
      rewrite record_glucose, H1. apply round2_0.
    + right; left. repeat split; try assumption.
      rewrite record_atp, H1. apply round2_0.
    + right; right. repeat split; assumption.
Qed.

(** ** The fold-improvement loop as a whole *)

(** X9: the fold-improvement code raises [IndexError] exactly on an empty
    [results]; when it returns, it returns one record per row after the
    first; run after the sweep over the five literal gears it never raises
    [IndexError] and, when it returns, gives four records. *)
Theorem fold_improvements_outcome (results : list Result) :
  (fold_improvements results = Raise IndexError <-> results = []) /\
  (forall fcs : list FoldChange,
     fold_improvements results = Return fcs ->
     length results = S (length fcs)) /\
  (forall (optimize : Model -> Solution) (m : Model),
     snd (main optimize m) <> Raise IndexError /\
     forall fcs : list FoldChange,
       snd (main optimize m) = Return fcs -> length fcs = 4%nat).
Proof.
  assert (Hlen : forall rs fcs,
             fold_improvements rs = Return fcs ->
             length rs = S (length fcs)).
  { intros [|gear1 rest] fcs; cbn [fold_improvements]; [discriminate|].
    intros H. apply fold_loop_length in H. cbn. now rewrite H. }
  split; [|split].
  - destruct results as [|gear1 rest]; cbn [fold_improvements].
    + split; reflexivity.
    + split; [|discriminate].
      intros H. now apply fold_loop_no_index_error in H.
  - apply Hlen.
  - intros optimize m. cbn [main snd].
    pose proof (sweep_length optimize m gears) as Hl.
    split.
    + destruct (snd (sweep optimize m gears)) as [|gear1 rest];
        [discriminate|].
      cbn [fold_improvements]. apply fold_loop_no_index_error.
    + intros fcs H. apply Hlen in H. rewrite Hl in H. cbn in H. lia.
Qed.

Lemma round_half_even_small (y : R) :
  Rabs y < 1 / 2 -> round_half_even y = 0%Z.
Proof.
  intros Hy. apply Rabs_def2 in Hy as [Hhi Hlo].
  pose proof (round_half_even_close y) as [Hc1 Hc2].
  assert (H1 : (round_half_even y < 1)%Z) by (apply lt_IZR; lra).
  assert (H2 : (-1 < round_half_even y)%Z) by (apply lt_IZR; lra).
  lia.
Qed.

Lemma round2_small (x : R) : Rabs x < 0.005 -> round2 x = 0.
Proof.
  intros Hx. unfold round2. rewrite round_half_even_small; [lra|].
  apply Rabs_def2 in Hx as [Hhi Hlo]. apply Rabs_def1; lra.
Qed.

(** X10: when the solver's objective value for the first gear is [None], or
    is below 0.005 in magnitude, the first row's growth rate is 0.0 and the
    fold-improvement loop ends in [ZeroDivisionError], whatever the other
    values are. *)
Theorem zero_growth_baseline_raises (optimize : Model -> Solution)
    (m : Model) :
  match objective_value (optimize (model_at_solve optimize m gears 0)) with
  | Some g => Rabs g < 0.005
  | None => True
  end ->
  snd (main optimize m) = Raise ZeroDivisionError.
Proof.
  intros Hobj. unfold main, sweep.
  cbn [gears fold_left simulate_gear fst snd app fold_improvements
       fold_loop].
  set (g1 := {| name := "Gear 1" |}). set (g2 := {| name := "Gear 2" |}).
  change (model_at_solve optimize m gears 0) with (apply_gear g1 m) in Hobj.
  set (s1 := optimize (apply_gear g1 m)) in *.
  set (s2 := optimize (apply_gear g2 (apply_gear g1 m))).
  assert (Hzero : value (Growth_Rate (record_result g1 s1)) = 0).
  { destruct (objective_value s1) as [g|] eqn:E.
    - rewrite (record_growth_some g1 s1 g E). now apply round2_small.
    - rewrite (record_growth_none g1 s1 E). cbn. lra. }
  assert (Hfc : fold_change (record_result g1 s1) (record_result g2 s2) =
                Raise ZeroDivisionError).
  { apply fold_change_raise_iff. right; right.
    rewrite !record_growth_py. now repeat split. }
  rewrite Hfc. reflexivity.
Qed.

Lemma zero_growth_baseline_raises_witness :
  snd (main no_solution example_model) = Raise ZeroDivisionError.
Proof.
  apply (zero_growth_baseline_raises no_solution example_model).
  exact I.
Defined.

(** ** The data for the plots *)

Lemma comprehension_length {A B : Type} (f : A -> outcome B) (l : list A)
    (ys : list B) :
  comprehension f l = Return ys -> length ys = length l.
Proof.
  revert ys. induction l as [|x l IH]; intros ys; cbn [comprehension].
  - now intros [= <-].
  - destruct (f x) as [y | e]; cbn [bind]; [|discriminate].
    destruct (comprehension f l) as [ys' | e]; cbn [bind]; [|discriminate].
    intros [= <-]. cbn. f_equal. now apply IH.
Qed.

Lemma comprehension_cases {A B : Type} (f : A -> outcome B) (l : list A) :
  (forall x, (exists y, f x = Return y) \/ f x = Raise ZeroDivisionError) ->
  (exists ys, comprehension f l = Return ys) \/
  comprehension f l = Raise ZeroDivisionError.
Proof.
  intros Hf. induction l as [|x l IH]; cbn [comprehension]; [eauto|].
  destruct (Hf x) as [[y ->] | ->]; cbn [bind]; [|now right].
  destruct IH as [[ys ->] | ->]; cbn [bind]; eauto.
Qed.

Lemma comprehension_map {A B : Type} (f : A -> outcome B) (g : A -> B)
    (l : list A) :
  Forall (fun x => f x = Return (g x)) l ->
  comprehension f l = Return (map g l).
Proof.
  induction 1 as [|x l Hx _ IH]; cbn [comprehension map]; [reflexivity|].
  now rewrite Hx, IH.
Qed.

Lemma guarded_growth_fold_cases (gear1 result : Result) :
  (exists q, guarded_growth_fold gear1 result = Return q) \/
  guarded_growth_fold gear1 result = Raise ZeroDivisionError.
Proof.
  unfold guarded_growth_fold.
  destruct (Rlt_dec _ _); [apply truediv_cases | eauto].
Qed.

(** X11: the plot data cannot be built from an empty [results]
    ([IndexError]); when it is built, each of its nine lists has one entry
    per row, the names in row order. *)
Theorem plot_data_shape (results : list Result) :
  (plot_data results = Raise IndexError <-> results = []) /\
  forall pd : PlotData,
    plot_data results = Return pd ->
    plot_gears pd = map Gear results /\
    length (glucose_uptake pd) = length results /\
    length (growth_rates pd) = length results /\
    length (atp_production pd) = length results /\
    length (lactate_production pd) = length results /\
    length (ethanol_production pd) = length results /\
    length (glucose_folds pd) = length results /\
    length (atp_folds pd) = length results /\
    length (growth_folds pd) = length results.
Proof.
  destruct results as [|gear1 rest].
  { split; [split; reflexivity | discriminate]. }
  unfold plot_data. cbv beta iota zeta.
  set (results := gear1 :: rest).
  destruct (comprehension_cases
              (fun result =>
                 truediv (abs (Glucose_Uptake result))
                   (abs (Glucose_Uptake gear1))) results
              (fun x => truediv_cases _ _)) as [[l1 E1] | E1];
    rewrite E1; cbn [bind].
  2: { split; [split; discriminate | discriminate]. }
  destruct (comprehension_cases
              (fun result =>
                 truediv (ATP_Production result) (ATP_Production gear1))
              results (fun x => truediv_cases _ _)) as [[l2 E2] | E2];
    rewrite E2; cbn [bind].
  2: { split; [split; discriminate | discriminate]. }
  destruct (comprehension_cases (guarded_growth_fold gear1) results
              (guarded_growth_fold_cases gear1)) as [[l3 E3] | E3];
    rewrite E3; cbn [bind].
  2: { split; [split; discriminate | discriminate]. }
  split; [split; discriminate|].
  intros pd [= <-].
  cbn [plot_gears glucose_uptake growth_rates atp_production
       lactate_production ethanol_production glucose_folds atp_folds
       growth_folds].
  apply comprehension_length in E1, E2, E3.
  subst results. cbn [length] in *. rewrite !length_map.
  repeat split; assumption.
Qed.

Lemma plot_data_cons (gear1 : Result) (rest : list Result) :
  plot_data (gear1 :: rest) =
  let results := gear1 :: rest in
  let! glucose_folds :=
    comprehension
      (fun result =>
         truediv (abs (Glucose_Uptake result)) (abs (Glucose_Uptake gear1)))
      results in
  let! atp_folds :=
    comprehension
      (fun result => truediv (ATP_Production result) (ATP_Production gear1))
      results in
  let! growth_folds := comprehension (guarded_growth_fold gear1) results in
  Return
    {| plot_gears := map Gear results;
       glucose_uptake :=
         map (fun result => neg (Glucose_Uptake result)) results;
       growth_rates := map Growth_Rate results;
       atp_production := map ATP_Production results;
       lactate_production := map Lactate_Production results;
       ethanol_production := map Ethanol_Production results;
       glucose_folds := glucose_folds; atp_folds := atp_folds;
       growth_folds := growth_folds |}.
Proof. reflexivity. Qed.

(** X12: when the first row has a non-zero glucose flux and ATP flux and a
    positive growth rate, and no later row has a negative growth rate, both
    the fold-improvement loop and the plot data are computed, the three fold
    lists of the plot data start with 1 (the first row against itself) and
    continue with exactly the ratios of the loop. *)
Theorem plot_folds_agree (gear1 : Result) (rest : list Result) :
  value (Glucose_Uptake gear1) <> 0 ->
  value (ATP_Production gear1) <> 0 ->
  0 < value (Growth_Rate gear1) ->
  Forall (fun r => 0 <= value (Growth_Rate r)) rest ->
  exists (fcs : list FoldChange) (pd : PlotData),
    fold_improvements (gear1 :: rest) = Return fcs /\
    plot_data (gear1 :: rest) = Return pd /\
    glucose_folds pd = Finite 1 :: map glucose_fold fcs /\
    atp_folds pd = Finite 1 :: map atp_fold fcs /\
    growth_folds pd = Finite 1 :: map growth_fold fcs.
Proof.
  intros Hglc Hatp Hgrowth Hrest.
  assert (Habs : Rabs (value (Glucose_Uptake gear1)) <> 0)
    by now apply Rabs_no_R0.
  eexists. eexists. split.
  { cbn [fold_improvements]. apply fold_loop_nonzero; lra. }
  rewrite plot_data_cons. cbv zeta.
  rewrite (comprehension_map _
             (fun r => Finite (Rabs (value (Glucose_Uptake r)) /
                               Rabs (value (Glucose_Uptake gear1))))).
  2: { apply Forall_forall. intros r _.
       rewrite truediv_nonzero by (now rewrite value_abs).
       now rewrite !value_abs. }
  rewrite (comprehension_map _
             (fun r => Finite (value (ATP_Production r) /
                               value (ATP_Production gear1)))).
  2: { apply Forall_forall. intros r _. now rewrite truediv_nonzero. }
  rewrite (comprehension_map _
             (fun r =>
                if Rlt_dec 0 (value (Growth_Rate r)) then
                  Finite (value (Growth_Rate r) / value (Growth_Rate gear1))
                else Finite 0.0)).
  2: { apply Forall_forall. intros r _. unfold guarded_growth_fold.
       destruct (Rlt_dec _ _); [|reflexivity].
       apply truediv_nonzero. lra. }
  cbn [bind]. split; [reflexivity|].
  cbn [glucose_folds atp_folds growth_folds map]. rewrite !map_map.
  cbn [glucose_fold atp_fold growth_fold].
  split; [|split].
  - f_equal. f_equal. now field.
  - f_equal. f_equal. now field.
  - f_equal.
    + destruct (Rlt_dec _ _); [|lra]. f_equal. field. lra.
    + clear Hglc Hatp Habs.
      induction Hrest as [|r rest Hr _ IH]; [reflexivity|].
      cbn [map]. f_equal; [|exact IH].
      destruct (Rlt_dec _ _); [reflexivity|].
      f_equal. assert (value (Growth_Rate r) = 0) as -> by lra. lra.
Qed.

Lemma plot_folds_agree_witness :
  exists (fcs : list FoldChange) (pd : PlotData),
    fold_improvements [example_row; example_row] = Return fcs /\
    plot_data [example_row; example_row] = Return pd /\
    growth_folds pd = Finite 1 :: map growth_fold fcs.
Proof.
  assert (H1 : value (Glucose_Uptake example_row) <> 0) by (cbn; lra).
  assert (H2 : value (ATP_Production example_row) <> 0) by (cbn; lra).
  assert (H3 : 0 < value (Growth_Rate example_row)) by (cbn; lra).
  assert (H4 : Forall (fun r => 0 <= value (Growth_Rate r)) [example_row]).
  { constructor; [cbn; lra | constructor]. }
  destruct (plot_folds_agree example_row [example_row] H1 H2 H3 H4)
    as (fcs & pd & Hf & Hp & _ & _ & Hg).
  exists fcs, pd. repeat split; assumption.
Defined.

(** X13: when the first gear's solution has no ATP synthase flux, or a flux
    of exactly 0, the script does not get past line 111: the fold-improvement
    loop or, if that returned, the list of ATP fold changes ends in
    [ZeroDivisionError]. *)
Theorem zero_atp_baseline_raises (optimize : Model -> Solution)
    (m : Model) :
  default 0
    (fluxes (optimize (model_at_solve optimize m gears 0)) !! "ATPS4rpp") = 0 ->
  script optimize m = Raise ZeroDivisionError.
Proof.
  intros Hatp. unfold script, sweep.
  cbn [gears fold_left simulate_gear fst snd app].
  set (g1 := {| name := "Gear 1" |}).
  change (model_at_solve optimize m gears 0) with (apply_gear g1 m) in Hatp.
  set (s1 := optimize (apply_gear g1 m)) in *.
  set (row1 := record_result g1 s1).
  match goal with
  | |- context [fold_improvements (row1 :: ?l)] => set (rest := l)
  end.
  cbn [fold_improvements].
  pose proof (fold_loop_no_index_error row1 rest) as Hno.
  destruct (fold_loop row1 rest) as [fcs | [|]]; cbn [bind];
    [|reflexivity|congruence].
  rewrite plot_data_cons. cbv zeta.
  destruct (comprehension_cases
              (fun result =>
                 truediv (abs (Glucose_Uptake result))
                   (abs (Glucose_Uptake row1))) (row1 :: rest)
              (fun x => truediv_cases _ _)) as [[l1 E1] | E1];
    rewrite E1; cbn [bind]; [|reflexivity].
  cbn [comprehension].
  assert (Hdiv : truediv (ATP_Production row1) (ATP_Production row1) =
                 Raise ZeroDivisionError).
  { unfold row1. rewrite (record_atp_zero g1 s1 Hatp).
    apply truediv_raise_iff. cbn. repeat split; lra. }
  rewrite Hdiv. reflexivity.
Qed.

Lemma zero_atp_baseline_raises_witness :
  script fermenting_solver example_model = Raise ZeroDivisionError.
Proof.
  apply (zero_atp_baseline_raises fermenting_solver example_model).
  unfold fermenting_solver. cbn [fluxes].
  rewrite lookup_singleton_ne by done. reflexivity.
Defined.

Lemma round2_nonzero (x : R) : 0.005 < Rabs x -> round2 x <> 0.
Proof.
  intros Hx Hz. pose proof (round2_close x) as Hc. rewrite Hz in Hc.
  revert Hx. unfold Rabs. destruct (Rcase_abs x); lra.
Qed.

Lemma round2_pos (x : R) : 0.005 < x -> 0 < round2 x.
Proof.
  intros Hx. pose proof (round2_close x). lra.
Qed.

(** X14: when the first gear's solution has an objective value above 0.005
    and glucose and ATP synthase fluxes above 0.005 in magnitude, the script
    runs through line 112 whatever the later solutions are: five rows, four
    fold-change records and plot lists of five entries. *)
Theorem script_completes (optimize : Model -> Solution) (m : Model)
    (g v a : R) :
  let s1 := optimize (model_at_solve optimize m gears 0) in
  objective_value s1 = Some g -> 0.005 < g ->
  fluxes s1 !! "EX_glc__D_e" = Some v -> 0.005 < Rabs v ->
  fluxes s1 !! "ATPS4rpp" = Some a -> 0.005 < Rabs a ->
  exists (fcs : list FoldChange) (pd : PlotData),
    script optimize m = Return (snd (sweep optimize m gears), fcs, pd) /\
    length (snd (sweep optimize m gears)) = 5%nat /\
    length fcs = 4%nat /\
    length (glucose_folds pd) = 5%nat /\
    length (atp_folds pd) = 5%nat /\
    length (growth_folds pd) = 5%nat.
Proof.
  intros s1 Hobj Hg Hglc Hv Hatp Ha.
  pose proof (sweep_length optimize m gears) as Hlen.
  assert (Hrow : exists rest,
             snd (sweep optimize m gears) =
             record_result
               {| name := "Gear 1"; glucose := -10.0; oxygen := -18.0;
                  burden := 0.0 |} s1 :: rest).
  { unfold sweep. cbn [gears fold_left simulate_gear fst snd app].
    eexists. reflexivity. }
  destruct Hrow as [rest Hrow].
  set (row1 := record_result _ s1) in Hrow.
  assert (R1 : value (Glucose_Uptake row1) <> 0).
  { unfold row1. rewrite record_glucose, Hglc. now apply round2_nonzero. }
  assert (R2 : value (ATP_Production row1) <> 0).
  { unfold row1. rewrite record_atp, Hatp. now apply round2_nonzero. }
  assert (R3 : 0 < value (Growth_Rate row1)).
  { unfold row1. rewrite (record_growth_some _ s1 g Hobj).
    now apply round2_pos. }
  unfold script. cbv zeta. rewrite Hrow in *.
  cbn [fold_improvements].
  rewrite fold_loop_nonzero by lra. cbn [bind].
  destruct (comprehension_cases
              (fun result =>
                 truediv (abs (Glucose_Uptake result))
                   (abs (Glucose_Uptake row1))) (row1 :: rest)
              (fun x => truediv_cases _ _)) as [[l1 E1] | E1].
  2: { exfalso. revert E1.
       rewrite (comprehension_map _
                  (fun r => Finite (value (abs (Glucose_Uptake r)) /
                                    value (abs (Glucose_Uptake row1)))));
         [discriminate|].
       apply Forall_forall. intros r _. apply truediv_nonzero.
       rewrite value_abs. now apply Rabs_no_R0. }
  destruct (comprehension_cases
              (fun result =>
                 truediv (ATP_Production result) (ATP_Production row1))
              (row1 :: rest) (fun x => truediv_cases _ _))
    as [[l2 E2] | E2].
  2: { exfalso. revert E2.
       rewrite (comprehension_map _
                  (fun r => Finite (value (ATP_Production r) /
                                    value (ATP_Production row1))));
         [discriminate|].
       apply Forall_forall. intros r _. now apply truediv_nonzero. }
  destruct (comprehension_cases (guarded_growth_fold row1) (row1 :: rest)
              (guarded_growth_fold_cases row1)) as [[l3 E3] | E3].
  2: { exfalso. revert E3.
       rewrite (comprehension_map _
                  (fun r =>
                     if Rlt_dec 0 (value (Growth_Rate r)) then
                       Finite (value (Growth_Rate r) /
                               value (Growth_Rate row1))
                     else Finite 0.0));
         [discriminate|].
       apply Forall_forall. intros r _. unfold guarded_growth_fold.
       destruct (Rlt_dec _ _); [|reflexivity].
       apply truediv_nonzero. lra. }
  rewrite plot_data_cons. cbv zeta. rewrite E1, E2, E3. cbn [bind].
  eexists. eexists. split; [reflexivity|].
  apply comprehension_length in E1, E2, E3.
  cbn [glucose_folds atp_folds growth_folds].
  rewrite E1, E2, E3, length_map.
  cbn [length gears] in Hlen |- *.
  repeat split; lia.
Qed.

Lemma script_completes_witness :
  exists (fcs : list FoldChange) (pd : PlotData),
    script steady_solver example_model =
      Return (snd (sweep steady_solver example_model gears), fcs, pd) /\
    length fcs = 4%nat.
Proof.
  assert (H1 : objective_value busy_solution = Some 0.5) by reflexivity.
  assert (H2 : 0.005 < 0.5) by lra.
  assert (H3 : fluxes busy_solution !! "EX_glc__D_e" = Some (-30)).
  { unfold busy_solution. cbn [fluxes].
    rewrite lookup_insert_ne by done. apply lookup_singleton_eq. }
  assert (H4 : 0.005 < Rabs (-30)).
  { rewrite Rabs_left; lra. }
  assert (H5 : fluxes busy_solution !! "ATPS4rpp" = Some 50).
  { unfold busy_solution. cbn [fluxes]. apply lookup_insert_eq. }
  assert (H6 : 0.005 < Rabs 50).
  { rewrite Rabs_right; lra. }
  destruct (script_completes steady_solver example_model 0.5 (-30) 50
              H1 H2 H3 H4 H5 H6) as (fcs & pd & Hs & _ & Hl & _).
  exists fcs, pd. split; assumption.
Defined.

(** ** Running the sweep again *)

Lemma reaction_eq (r1 r2 : Reaction) :
  lower_bound r1 = lower_bound r2 -> upper_bound r1 = upper_bound r2 ->
  r1 = r2.
Proof.
  destruct r1, r2; cbn. now intros -> ->.
Qed.

(** X15: a second sweep over the same gears on the model the first sweep
    left behind does not start from the loaded bounds: it leaves every bound
    as the first sweep did, except the biomass upper bound, which is
    multiplied once more by the factor of every gear. *)
Theorem second_sweep_compounds (optimize : Model -> Solution) (m : Model)
    (gs : list GearConfig) :
  gs <> [] ->
  let m1 := fst (sweep optimize m gs) in
  let m2 := fst (sweep optimize m1 gs) in
  EX_glc__D_e m2 = EX_glc__D_e m1 /\
  EX_o2_e m2 = EX_o2_e m1 /\
  ATPM m2 = ATPM m1 /\
  EX_lac__D_e m2 = EX_lac__D_e m1 /\
  EX_etoh_e m2 = EX_etoh_e m1 /\
  lower_bound (BIOMASS_Ec_iML1515_core_75p37M m2) =
    lower_bound (BIOMASS_Ec_iML1515_core_75p37M m1) /\
  biomass_ub m2 =
    biomass_ub m1 * fold_right Rmult 1 (map biomass_factor gs).
Proof.
  intros Hne. cbv zeta.
  destruct (sweep_frame optimize (fst (sweep optimize m gs)) gs)
    as (F1 & F2 & F3 & F4).
  repeat apply conj; try assumption; try apply sweep_biomass.
  all: destruct gs as [|g0 gs0] using rev_ind; [congruence|];
    clear IHgs0; rewrite !sweep_snoc in *;
    cbn [simulate_gear fst] in *; apply reaction_eq;
    first [assumption | reflexivity].
Qed.

Lemma second_sweep_compounds_witness :
  biomass_ub
    (fst (sweep no_solution (fst (sweep no_solution example_model gears))
            gears)) =
  biomass_ub (fst (sweep no_solution example_model gears)) *
    fold_right Rmult 1 (map biomass_factor gears).
Proof.
  assert (H : gears <> []) by discriminate.
  apply (second_sweep_compounds no_solution example_model gears H).
Defined.

(** * The bound writes with their exceptions *)

(** ** The float range *)

Lemma float_max_ge_1e200 : 10 ^ 200 <= float_max.
Proof.
  unfold float_max. rewrite pow_IZR. apply IZR_le.
  apply Z.leb_le. vm_compute. reflexivity.
Qed.

Lemma float_max_lt_1e342 : float_max < (10 ^ 19) ^ 18.
Proof.
  unfold float_max. rewrite !pow_IZR. apply IZR_lt.
  apply Z.ltb_lt. vm_compute. reflexivity.
Qed.

Lemma pow_le_1 (x : R) : 0 <= x <= 1 -> Py.pow x 1.8 <= 1.
Proof.
  intros [H0 H1]. unfold Py.pow. destruct (Req_dec_T x 0); [lra|].
  unfold Rpower. rewrite <- exp_0. apply exp_le_mono.
  assert (ln x <= 0).
  { rewrite <- ln_1. destruct H1 as [Hlt | ->]; [|lra].
    left. apply ln_increasing; lra. }
  nra.
Qed.

Lemma pow_le_square (x : R) : 1 <= x -> Py.pow x 1.8 <= x * x.
Proof.
  intros Hx. unfold Py.pow. destruct (Req_dec_T x 0); [lra|].
  replace (x * x) with (x ^ 2) by ring.
  rewrite <- (Rpower_pow 2 x) by lra.
  destruct Hx as [Hlt | <-].
  - apply Rle_Rpower; [lra|]. cbn. lra.
  - unfold Rpower. rewrite ln_1, !Rmult_0_r. lra.
Qed.

(** Far inside the float range: a base up to [10 ^ 100]. *)
Lemma pow_in_range (x : R) :
  0 <= x <= 10 ^ 100 -> Py.pow x 1.8 <= float_max.
Proof.
  intros [H0 H1]. pose proof float_max_ge_1e200 as Hmax.
  assert (H100 : 1 <= 10 ^ 100) by (apply pow_R1_Rle; lra).
  assert (H200 : 10 ^ 200 = 10 ^ 100 * 10 ^ 100)
    by (rewrite <- pow_add; reflexivity).
  destruct (Rle_dec x 1) as [Hle | Hgt].
  - pose proof (pow_le_1 x (conj H0 Hle)). nra.
  - pose proof (pow_le_square x ltac:(lra)). nra.
Qed.

(** Beyond it: the power of [10 ^ 200 * 0.02]. *)
Lemma pow_out_of_range : float_max < Py.pow (10 ^ 200 * 0.02) 1.8.
Proof.
  assert (Hbase : 0 < (10 ^ 19) ^ 10) by (apply pow_lt, pow_lt; lra).
  assert (Hle : (10 ^ 19) ^ 10 <= 10 ^ 200 * 0.02).
  { rewrite <- pow_mult.
    replace (10 ^ 200) with (10 ^ (19 * 10) * 10 ^ 10)
      by (rewrite <- pow_add; reflexivity).
    assert (0 < 10 ^ (19 * 10)) by (apply pow_lt; lra).
    assert (100 <= 10 ^ 10) by (cbn; lra).
    nra. }
  unfold Py.pow. destruct (Req_dec_T _ _) as [Hz | _]; [lra|].
  apply Rlt_le_trans with (Rpower ((10 ^ 19) ^ 10) 1.8).
  - rewrite <- (Rpower_pow 10 (10 ^ 19)) by (apply pow_lt; lra).
    rewrite Rpower_mult.
    replace (INR 10 * 1.8) with (INR 18)
      by (rewrite !INR_IZR_INZ; change (Z.of_nat 10) with 10%Z;
          change (Z.of_nat 18) with 18%Z; lra).
    rewrite Rpower_pow by (apply pow_lt; lra).
    apply float_max_lt_1e342.
  - apply Rle_Rpower_l; lra.
Qed.

(** ** The stress cost with its exception *)

Lemma checked_cost_in_range (g : R) :
  Py.pow (Rabs g * 0.02) 1.8 <= float_max ->
  Checked.calculate_stress_cost g = Done (calculate_stress_cost g).
Proof.
  intros H. unfold Checked.calculate_stress_cost, Checked.pow; cbv zeta.
  destruct (Rlt_dec _ _); [lra | reflexivity].
Qed.

Lemma checked_cost_overflow (g : R) :
  float_max < Py.pow (Rabs g * 0.02) 1.8 ->
  Checked.calculate_stress_cost g = Failed OverflowError.
Proof.
  intros H. unfold Checked.calculate_stress_cost, Checked.pow; cbv zeta.
  destruct (Rlt_dec _ _); [reflexivity | contradiction].
Qed.

Lemma checked_cost_done (g c : R) :
  Checked.calculate_stress_cost g = Done c -> c = calculate_stress_cost g.
Proof.
  unfold Checked.calculate_stress_cost, Checked.pow; cbv zeta.
  destruct (Rlt_dec _ _); cbn [and_then]; [discriminate|].
  now intros [= <-].
Qed.

(** C6, as stated, fails: at the uptake magnitude [10 ^ 200] the power leaves
    the float range and the function raises [OverflowError] instead of
    returning the capped value. *)
Lemma stress_cost_overflows :
  ~ (forall g : R,
       0 <= g ->
       Checked.calculate_stress_cost g =
       Done (Rmin (Py.pow (g * 0.02) 1.8) 200)).
Proof.
  intros H.
  assert (Hpos : 0 <= 10 ^ 200) by (apply pow_le; lra).
  specialize (H (10 ^ 200) Hpos).
  rewrite checked_cost_overflow in H; [discriminate|].
  rewrite Rabs_right by lra. apply pow_out_of_range.
Qed.

(** C6, amended: for an uptake magnitude [g >= 0] whose power
    [(g * 0.02) ^ 1.8] is within the float range, the maintenance cost is
    returned and is [min((g * 0.02) ^ 1.8, 200)]; over that range it never
    decreases as [g] grows, increases strictly below the cap and never
    exceeds 200; at [g = 10000] it is exactly 200. *)
Theorem maintenance_cost_capped_in_range (g1 g2 : R) :
  0 <= g1 -> g1 <= g2 ->
  Py.pow (g2 * 0.02) 1.8 <= float_max ->
  exists c1 c2 : R,
    Checked.calculate_stress_cost g1 = Done c1 /\
    Checked.calculate_stress_cost g2 = Done c2 /\
    (g1 = 0 -> c1 = 0) /\
    (0 < g1 -> c1 = Rmin (Rpower (g1 * 0.02) 1.8) 200) /\
    c1 <= c2 /\
    (g1 < g2 -> c2 < 200 -> c1 < c2) /\
    c2 <= 200 /\
    Checked.calculate_stress_cost 10000 = Done 200.
Proof.
  intros H1 H12 Hrange.
  assert (Hm : Py.pow (g1 * 0.02) 1.8 <= Py.pow (g2 * 0.02) 1.8)
    by (apply pow_mono; lra).
  exists (calculate_stress_cost g1), (calculate_stress_cost g2).
  split; [|split].
  - apply checked_cost_in_range. rewrite Rabs_right by lra. lra.
  - apply checked_cost_in_range. rewrite Rabs_right by lra. lra.
  - rewrite !stress_cost_eq by lra. repeat split.
    + intros ->. unfold Py.pow.
      destruct (Req_dec_T (0 * 0.02) 0); [|lra].
      apply Rmin_left; lra.
    + intros Hpos. unfold Py.pow.
      destruct (Req_dec_T (g1 * 0.02) 0); [lra | reflexivity].
    + apply Rle_min_compat_r. exact Hm.
    + intros Hlt Hcap.
      assert (Hs : Py.pow (g1 * 0.02) 1.8 < Py.pow (g2 * 0.02) 1.8)
        by (apply pow_strict_mono; lra).
      revert Hcap. unfold Rmin.
      destruct (Rle_dec (Py.pow (g1 * 0.02) 1.8) 200),
               (Rle_dec (Py.pow (g2 * 0.02) 1.8) 200); lra.
    + apply Rmin_r.
    + assert (H100 : 10 ^ 3 <= 10 ^ 100) by (apply Rle_pow; [lra | lia]).
      rewrite checked_cost_in_range.
      * f_equal. rewrite stress_cost_eq by lra.
        replace (10000 * 0.02) with 200 by lra.
        apply Rmin_right, pow_200.
      * apply pow_in_range. rewrite Rabs_right by lra. lra.
Qed.

Lemma maintenance_cost_capped_in_range_witness :
  exists c1 c2 : R,
    Checked.calculate_stress_cost 10 = Done c1 /\
    Checked.calculate_stress_cost 30 = Done c2 /\
    c1 <= c2 /\
    Checked.calculate_stress_cost 10000 = Done 200.
Proof.
  assert (H1 : 0 <= 10) by lra.
  assert (H2 : 10 <= 30) by lra.
  assert (H3 : Py.pow (30 * 0.02) 1.8 <= float_max).
  { apply pow_in_range. split; [lra|].
    apply Rle_trans with (10 ^ 1); [lra|]. apply Rle_pow; [lra | lia]. }
  destruct (maintenance_cost_capped_in_range 10 30 H1 H2 H3)
    as (c1 & c2 & E1 & E2 & _ & _ & Hle & _ & _ & Hcap).
  exists c1, c2. repeat split; assumption.
Defined.

(** ** The bound writes of one gear *)

Lemma set_lower_bound_done (v : R) (r r' : Reaction) :
  Checked.set_lower_bound v r = Done r' -> r' = set_lower_bound v r.
Proof.
  unfold Checked.set_lower_bound.
  destruct (Rlt_dec _ _); [discriminate|]. now intros [= <-].
Qed.

Lemma set_upper_bound_done (v : R) (r r' : Reaction) :
  Checked.set_upper_bound v r = Done r' -> r' = set_upper_bound v r.
Proof.
  unfold Checked.set_upper_bound.
  destruct (Rlt_dec _ _); [discriminate|]. now intros [= <-].
Qed.

Lemma set_lower_bound_ok (v : R) (r : Reaction) :
  v <= upper_bound r ->
  Checked.set_lower_bound v r = Done (set_lower_bound v r).
Proof.
  intros H. unfold Checked.set_lower_bound.
  destruct (Rlt_dec _ _); [lra | reflexivity].
Qed.

Lemma set_upper_bound_ok (v : R) (r : Reaction) :
  lower_bound r <= v ->
  Checked.set_upper_bound v r = Done (set_upper_bound v r).
Proof.
  intros H. unfold Checked.set_upper_bound.
  destruct (Rlt_dec _ _); [lra | reflexivity].
Qed.

Ltac next_write H :=
  cbv zeta in H;
  match type of H with
  | and_then ?c _ = Done _ =>
      let x := fresh "x" in
      let E := fresh "E" in
      destruct c as [x|] eqn:E; cbn [and_then] in H; [|discriminate H];
      first [ apply set_lower_bound_done in E
            | apply set_upper_bound_done in E
            | apply checked_cost_done in E ];
      subst x
  end.

(** When no write raises, the model is the one of the total definition. *)
Lemma checked_apply_gear_done (gear : GearConfig) (m m' : Model) :
  Checked.apply_gear gear m = Done m' -> m' = apply_gear gear m.
Proof.
  intros H. unfold Checked.apply_gear in H.
  do 9 next_write H.
  cbv zeta in H. now injection H as <-.
Qed.

Lemma checked_apply_gear_ok (gear : GearConfig) (m : Model) :
  roomy m -> fits m gear ->
  Checked.apply_gear gear m = Done (apply_gear gear m).
Proof.
  intros (Hlb & Hub & Hlac & Hetoh) (Hglc & Ho2 & Hpow & Hatpm).
  pose proof (biomass_factor_floor gear) as Hf. unfold biomass_factor in Hf.
  unfold biomass_ub in Hub.
  unfold Checked.apply_gear.
  rewrite set_lower_bound_ok by assumption. cbn [and_then]. cbv zeta.
  rewrite set_lower_bound_ok by assumption. cbn [and_then]. cbv zeta.
  rewrite set_upper_bound_ok by (cbn; nra). cbn [and_then]. cbv zeta.
  rewrite checked_cost_in_range by assumption. cbn [and_then].
  rewrite set_lower_bound_ok by (cbn; lra). cbn [and_then]. cbv zeta.
  rewrite set_lower_bound_ok by (cbn; lra). cbn [and_then]. cbv zeta.
  rewrite set_upper_bound_ok by (cbn; lra). cbn [and_then]. cbv zeta.
  rewrite set_lower_bound_ok by (cbn; lra). cbn [and_then]. cbv zeta.
  rewrite set_upper_bound_ok by (cbn; lra). cbn [and_then].
  reflexivity.
Qed.

(** X3: whenever the bound writes for a gear all pass, the ATP maintenance
    lower bound they leave is at least 35 and at most 235, and it is 35 for
    a gear without glucose uptake. *)
Theorem atpm_bound_range_when_set (gear : GearConfig) (m m' : Model) :
  Checked.apply_gear gear m = Done m' ->
  35 <= lower_bound (ATPM m') <= 235 /\
  (glucose gear = 0 -> lower_bound (ATPM m') = 35).
Proof.
  intros H. apply checked_apply_gear_done in H. subst m'.
  cbn [apply_gear with_EX_glc__D_e with_EX_o2_e with_BIOMASS with_ATPM
       with_EX_lac__D_e with_EX_etoh_e set_lower_bound set_upper_bound
       ATPM lower_bound].
  pose proof (stress_cost_range (glucose gear)) as Hc. split; [lra|].
  intros ->. unfold calculate_stress_cost, Py.pow; cbv zeta.
  rewrite Rabs_R0, py_min_Rmin.
  destruct (Req_dec_T _ _); [|lra]. rewrite Rmin_left; lra.
Qed.

Lemma example_model_roomy : roomy example_model.
Proof. unfold roomy, biomass_ub, example_model; cbn. lra. Qed.

Lemma small_gear_fits (g : GearConfig) :
  Rabs (glucose g) <= 1000 -> glucose g <= 1000 -> oxygen g <= 1000 ->
  fits example_model g.
Proof.
  intros Habs Hglc Ho2. unfold fits, example_model; cbn.
  pose proof (stress_cost_range (glucose g)).
  pose proof (Rabs_pos (glucose g)).
  repeat split; try lra.
  apply pow_in_range. split; [lra|].
  apply Rle_trans with (10 ^ 3); [lra|]. apply Rle_pow; [lra | lia].
Qed.

Lemma atpm_bound_range_when_set_witness :
  exists m' : Model,
    Checked.apply_gear idle_gear example_model = Done m' /\
    lower_bound (ATPM m') = 35.
Proof.
  assert (Hfits : fits example_model idle_gear).
  { apply small_gear_fits; unfold idle_gear; cbn;
      rewrite ?Rabs_R0; lra. }
  pose proof (checked_apply_gear_ok idle_gear example_model
                example_model_roomy Hfits) as Hdone.
  exists (apply_gear idle_gear example_model). split; [exact Hdone|].
  apply (atpm_bound_range_when_set idle_gear example_model _ Hdone).
  reflexivity.
Defined.

(** ** The sweep with its exceptions *)






